(** * Care Companion demo: the heuristic ("Demo Mode") generators and the
      dispatch layer of [app.py], embedded in Rocq.

    Text.  A Python [str] is a [string]; a character is an [ascii].  The
    character classes and case mappings that the source relies on ([\d],
    [\s], [\w] and [\b], [str.lower], [str.upper], [str.strip], [int]) are
    defined as Python has them on the code points 0..127.  The characters of
    the source's own literals outside that range (emoji, dashes, the degree
    sign) stand as their UTF-8 bytes; these characters are caseless and in
    none of the classes, and so are their bytes.

    Scope.  On other characters Python's classes are wider: an accented
    letter is a word character, U+00A0 is white space, a fullwidth digit is a
    digit, the Kelvin sign lowers to k.  A property whose statement turns on
    the class or the case of the characters of a text is therefore stated
    for an [ascii_text] (for the temperature pattern, which names the degree
    sign, an [ascii_or_degree_text]): on such a text the definitions below
    compute what Python computes.  A property stated for every text does not
    depend on the classes, or only speaks of what an extractor has returned.

    Failure.  Code that can raise returns a [result]; [Raise] carries the
    text of the exception. *)

From Stdlib Require Import Bool Arith Lia List ZArith Ascii String Sorted.
Import ListNotations.
Local Open Scope list_scope.
Local Open Scope string_scope.
Local Open Scope nat_scope.

(** ** Exceptions *)

Inductive result (A : Type) : Type :=
| Ret (a : A)
| Raise (e : string).
Arguments Ret {A} a.
Arguments Raise {A} e.

Definition bind {A B : Type} (c : result A) (k : A -> result B) : result B :=
  match c with
  | Ret a => k a
  | Raise e => Raise e
  end.

(** List append, kept apart from the append of strings. *)
Notation "xs +++ ys" := (List.app xs ys) (at level 60, right associativity).

Notation "x <- c ;; k" := (bind c (fun x => k))
  (at level 61, c at next level, right associativity).

(** ** Characters and strings, as Python has them *)

Definition nl : string := String (ascii_of_nat 10) EmptyString.

Definition code (c : ascii) : nat := nat_of_ascii c.

Definition between (lo hi n : nat) : bool := (lo <=? n) && (n <=? hi).

(** [\d], on the code points 0..127: the ten decimal digits. *)
Definition is_digit (c : ascii) : bool := between 48 57 (code c).

(** [\s] and the white space of [str.strip], on the code points 0..127:
    tab, line feed, vertical tab, form feed, carriage return, the four
    separators 28..31 and the space. *)
Definition is_space (c : ascii) : bool :=
  between 9 13 (code c) || between 28 32 (code c).

(** [\w], on the code points 0..127: letters, digits and the underscore. *)
Definition is_word (c : ascii) : bool :=
  is_digit c || between 65 90 (code c) || between 97 122 (code c)
  || (code c =? 95).

Definition lower_char (c : ascii) : ascii :=
  if between 65 90 (code c) then ascii_of_nat (code c + 32) else c.

Definition upper_char (c : ascii) : ascii :=
  if between 97 122 (code c) then ascii_of_nat (code c - 32) else c.

Fixpoint map_chars (f : ascii -> ascii) (s : string) : string :=
  match s with
  | EmptyString => EmptyString
  | String c r => String (f c) (map_chars f r)
  end.

(** [s.lower()] and [s.upper()], on the code points 0..127: the 26 letters
    change case, every other character is kept. *)
Definition lower (s : string) : string := map_chars lower_char s.
Definition upper (s : string) : string := map_chars upper_char s.

Fixpoint all_chars (p : ascii -> bool) (s : string) : bool :=
  match s with
  | EmptyString => true
  | String c r => p c && all_chars p r
  end.





(** [p in t] *)
Fixpoint contains (p t : string) : bool :=
  if prefix p t then true
  else match t with
       | EmptyString => false
       | String _ r => contains p r
       end.

(** [s.startswith(p)] *)
Definition startswith (s p : string) : bool := prefix p s.

(** [sep.join(xs)] *)
Fixpoint join (sep : string) (xs : list string) : string :=
  match xs with
  | [] => EmptyString
  | [x] => x
  | x :: r => x ++ sep ++ join sep r
  end.

Fixpoint take (n : nat) (s : string) : string :=
  match n, s with
  | S k, String c r => String c (take k r)
  | _, _ => EmptyString
  end.

Fixpoint drop (n : nat) (s : string) : string :=
  match n, s with
  | S k, String _ r => drop k r
  | _, _ => s
  end.

Definition head (s : string) : option ascii :=
  match s with
  | EmptyString => None
  | String c _ => Some c
  end.

Fixpoint last_char (prev : option ascii) (s : string) : option ascii :=
  match s with
  | EmptyString => prev
  | String c r => last_char (Some c) r
  end.

(** The lines of a text: [s.split("\n")]. *)
Fixpoint split_lines (s : string) : list string :=
  match s with
  | EmptyString => [EmptyString]
  | String c r =>
      if Ascii.eqb c (ascii_of_nat 10) then EmptyString :: split_lines r
      else match split_lines r with
           | [] => [String c EmptyString]
           | l :: ls => String c l :: ls
           end
  end.

(** [int(s)] on what the source passes to it, a group of the match: a
    non-empty run of the digits 0..9 gives its value; the model raises on
    everything else, [None] included. *)
Fixpoint digits_value (acc : Z) (s : string) : Z :=
  match s with
  | EmptyString => acc
  | String c r => digits_value (10 * acc + Z.of_nat (code c - 48)) r
  end.

Definition int (s : option string) : result Z :=
  match s with
  | None => Raise "TypeError"
  | Some d =>
      if negb (String.eqb d EmptyString) && all_chars is_digit d
      then Ret (digits_value 0 d)
      else Raise "ValueError"
  end.

(** ** The regular expressions of the source

    Both patterns are sequences of: a word boundary, a greedy bounded or
    unbounded repetition of one character class, an optional literal.  The
    matcher backtracks as Python's does: a repetition first takes as many
    characters as it can and gives them back one at a time. *)

Inductive item : Type :=
| Bnd                                               (* \b *)
| Rep (p : ascii -> bool) (lo : nat) (hi : option nat) (* c{lo,hi}, c*, c?, c *)
| Opt (lit : string).                               (* (?:lit)? *)

Definition is_word_at (c : option ascii) : bool :=
  match c with
  | Some a => is_word a
  | None => false
  end.

(** [\b] between the character before the position and the one after. *)
Definition at_boundary (prev : option ascii) (s : string) : bool :=
  xorb (is_word_at prev) (is_word_at (head s)).

(** How many leading characters of [s] are in the class, up to [hi]. *)
Fixpoint span (p : ascii -> bool) (hi : option nat) (s : string) : nat :=
  match s with
  | EmptyString => 0
  | String c r =>
      if p c then
        match hi with
        | Some 0 => 0
        | Some (S h) => S (span p (Some h) r)
        | None => S (span p None r)
        end
      else 0
  end.

(** Try [f n], [f (n-1)], ..., [f lo]. *)
Fixpoint try_down {A : Type} (f : nat -> option A) (lo n : nat) : option A :=
  if n <? lo then None
  else match f n with
       | Some r => Some r
       | None => match n with
                 | 0 => None
                 | S k => try_down f lo k
                 end
       end.

(** Match the items at the start of [s]; the result lists the text each item
    consumed. *)
Fixpoint match_here (its : list item) (prev : option ascii) (s : string)
  : option (list string) :=
  match its with
  | [] => Some []
  | Bnd :: r =>
      if at_boundary prev s
      then option_map (cons EmptyString) (match_here r prev s)
      else None
  | Rep p lo hi :: r =>
      try_down
        (fun k => option_map (cons (take k s))
                    (match_here r (last_char prev (take k s)) (drop k s)))
        lo (span p hi s)
  | Opt lit :: r =>
      let skip := option_map (cons EmptyString) (match_here r prev s) in
      if prefix lit s then
        match option_map (cons lit)
                (match_here r (last_char prev lit) (drop (length lit) s)) with
        | Some ps => Some ps
        | None => skip
        end
      else skip
  end.

(** [re.search]: the first position, from the left, where the items match. *)
Fixpoint search_from (its : list item) (prev : option ascii) (s : string)
  (pos : nat) : option (nat * list string) :=
  match match_here its prev s with
  | Some ps => Some (pos, ps)
  | None =>
      match s with
      | EmptyString => None
      | String c r => search_from its (Some c) r (S pos)
      end
  end.

Definition search (its : list item) (s : string) : option (nat * list string) :=
  search_from its None s 0.

(** [m.group(0)] *)
Definition group0 (ps : list string) : string := List.fold_right append EmptyString ps.

Definition lit_char (c : ascii) : item := Rep (Ascii.eqb c) 1 (Some 1).

(** [\b(\d{2,3})\s*/\s*(\d{2,3})\b] *)
Definition bp_re : list item :=
  [Bnd; Rep is_digit 2 (Some 3); Rep is_space 0 None; lit_char "/";
   Rep is_space 0 None; Rep is_digit 2 (Some 3); Bnd].

(** [\b(\d{2,3}\.?\d?)\s*°?\s*f\b] *)
Definition temp_re : list item :=
  [Bnd; Rep is_digit 2 (Some 3); Rep (Ascii.eqb ".") 0 (Some 1);
   Rep is_digit 0 (Some 1); Rep is_space 0 None; Opt "°";
   Rep is_space 0 None; lit_char "f"; Bnd].

(** ** Helpers: Demo-mode extraction

    The patterns and the lowering use the classes above: on an [ascii_text]
    (for [_find_temp], an [ascii_or_degree_text]) the three helpers return
    what the source's return. *)

Definition _find_bp (text : string) : result (option (Z * Z * string)) :=
  match search bp_re text with
  | None => Ret None
  | Some (_, ps) =>
      sys <- int (nth_error ps 1) ;;
      dia <- int (nth_error ps 5) ;;
      Ret (Some (sys, dia, group0 ps))
  end.

Definition _find_temp (text : string) : result (option string) :=
  match search temp_re (lower text) with
  | None => Ret None
  | Some (_, ps) => Ret (Some (group0 ps))
  end.

Definition _contains_any (text : string) (phrases : list string) : list string :=
  let t := lower text in
  filter (fun p => contains p t) phrases.

(** ** Small Python idioms *)

(** [if c: xs.append(x)] *)
Definition when {A : Type} (c : bool) (x : A) : list A :=
  if c then [x] else [].

(** [xs or default] on lists *)
Definition or_else {A : Type} (xs default : list A) : list A :=
  match xs with
  | [] => default
  | _ => xs
  end.

(** [d[k]] on a dict literal; a missing key raises. *)
Fixpoint dict_get (d : list (string * string)) (k : string) : result string :=
  match d with
  | [] => Raise "KeyError"
  | (k', v) :: r => if String.eqb k' k then Ret v else dict_get r k
  end.

Fixpoint map_result {A B : Type} (f : A -> result B) (xs : list A)
  : result (list B) :=
  match xs with
  | [] => Ret []
  | x :: r => y <- f x ;; ys <- map_result f r ;; Ret (y :: ys)
  end.

(** [set(xs)], listed in some order: first occurrences. *)
Definition set_of (xs : list string) : list string := nodup string_dec xs.

(** [sorted(xs)] on strings, by code points. *)
Fixpoint insert_sorted (x : string) (l : list string) : list string :=
  match l with
  | [] => [x]
  | y :: r => if String.leb x y then x :: y :: r else y :: insert_sorted x r
  end.

Definition sorted (xs : list string) : list string :=
  fold_right insert_sorted [] xs.

(** [s.strip()]: the white space of [is_space] is removed at both ends. *)
Fixpoint lstrip (s : string) : string :=
  match s with
  | EmptyString => EmptyString
  | String c r => if is_space c then lstrip r else s
  end.

Fixpoint rstrip (s : string) : string :=
  match s with
  | EmptyString => EmptyString
  | String c r =>
      match rstrip r with
      | EmptyString => if is_space c then EmptyString else String c EmptyString
      | r' => String c r'
      end
  end.

Definition strip (s : string) : string := rstrip (lstrip s).

(** ** Risk Radar *)

(** A finding: [(title, evidence, level)]. *)
Definition risk : Type := string * string * string.

Definition risk_title (r : risk) : string := fst (fst r).
Definition risk_evidence (r : risk) : string := snd (fst r).
Definition risk_level (r : risk) : string := snd r.

(** The list [risks] that [demo_risk_radar] builds (source lines 84-106). *)
Definition risks_of (note_text : string) : result (list risk) :=
  let t := lower note_text in
  bp <- _find_bp note_text ;;
  Ret
    ((match bp with
      | Some (sys, dia, raw) =>
          when ((sys <=? 90)%Z || (dia <=? 60)%Z)
            ("Low blood pressure reading", "Evidence: '" ++ raw ++ "'",
             "monitor_closely")
      | None => []
      end)
     +++ when (contains "dizzy" t || contains "dizziness" t
              || contains "lightheaded" t)
          ("Dizziness on standing", "Evidence: 'dizzy / standing' mentioned",
           "monitor_closely")
     +++ when (contains "short of breath" t || contains "difficulty breathing" t)
          ("Breathing difficulty", "Evidence: 'short of breath' mentioned",
           "consider_urgent")
     +++ when (contains "chest pain" t || contains "fainted" t
              || contains "passed out" t)
          ("Potential emergency symptom",
           "Evidence: chest pain/fainting mentioned", "consider_urgent")
     +++ when (contains "fell" t || contains "trip" t || contains "walker" t)
          ("Fall risk", "Evidence: fall/trip/walker mentioned",
           "monitor_closely")
     +++ when (contains "very little water" t || contains "drank less" t
              || contains "dehydr" t)
          ("Low hydration risk", "Evidence: low water intake mentioned",
           "monitor")).

(** The urgency aggregation (source lines 108-113). *)
Definition urgency_of (risks : list risk) : string :=
  match risks with
  | [] => "low"
  | _ =>
      let urgency :=
        if existsb (fun r => String.eqb (risk_level r) "monitor_closely") risks
        then "moderate" else "low" in
      if existsb (fun r => String.eqb (risk_level r) "consider_urgent") risks
      then "high" else urgency
  end.

Definition level_tags : list (string * string) :=
  [("monitor", "Monitor"); ("monitor_closely", "Monitor closely");
   ("consider_urgent", "Consider urgent care")].

(** One bullet of "Signals detected" (source lines 121-123). *)
Definition signal_line (r : risk) : result string :=
  let '(title, ev, level) := r in
  tag <- dict_get level_tags level ;;
  Ret ("- **" ++ title ++ "** — *" ++ tag ++ "*  " ++ nl ++ "  " ++ ev).

Definition risk_radar_lines (note_text : string) : result (list string) :=
  risks <- risks_of note_text ;;
  let urgency := urgency_of risks in
  signals <-
    match risks with
    | [] => Ret ["- No clear risk signals detected from the note."]
    | _ =>
        ls <- map_result signal_line risks ;;
        Ret ("### Signals detected (non-diagnostic)" :: ls)
    end ;;
  Ret
    (["## 🚦 Risk Radar (Demo Mode)";
      "**Urgency level:** **" ++ upper urgency ++ "**";
      EmptyString]
     +++ signals
     +++ [EmptyString; "### What to do next (general)"]
     +++ (if String.eqb urgency "high"
         then ["- Consider urgent medical care / call clinician, especially if symptoms worsen."]
         else ["- Monitor symptoms and repeat key measurements if available (e.g., BP).";
               "- Encourage hydration/food if appropriate and safe for the person."])).

Definition demo_risk_radar (note_text : string) : result string :=
  lines <- risk_radar_lines note_text ;;
  Ret (join nl lines).

(** ** Action Planner *)

Definition bullet (s : string) : string := "- " ++ s.

Definition action_planner_lines (note_text : string) : result (list string) :=
  let t := lower note_text in
  let dizzy := contains "dizzy" t || contains "lightheaded" t in
  bp <- _find_bp note_text ;;
  let has_bp := match bp with Some _ => true | None => false end in
  let water := contains "very little water" t || contains "drank less" t in
  let meal := contains "skipped breakfast" t || contains "ate only" t in
  let actions_now :=
    (when dizzy "Help them stand slowly; ensure a safe path to prevent falls."
     +++ when has_bp "Recheck blood pressure later if you have a monitor."
     +++ when water "Offer fluids in small amounts (if appropriate), and note intake."
     +++ when meal "Offer a small, easy-to-eat meal/snack if appropriate.") in
  let monitor :=
    (when dizzy "Track when dizziness happens (standing, after meds, after meals)."
     +++ when has_bp "Log BP with time and symptoms nearby."
     +++ when water "Urine frequency/color (if comfortable) as a hydration clue."
     +++ when meal "Food intake today (rough estimate).") in
  let confirm :=
    when (contains "missed" t)
      "Confirm which medication(s) were missed and when (write it down)." in
  let schedule :=
    ["Prepare a short update to share with family/other caregivers.";
     "If symptoms persist/worsen, contact clinician for guidance."] in
  Ret
    (["## ✅ Action Planner (Demo Mode)"; "### Do now"]
     +++ map bullet
          (or_else actions_now
             ["Ensure comfort and safety; address immediate needs."])
     +++ [EmptyString; "### Monitor"]
     +++ map bullet (or_else monitor ["Track symptoms + timing through the day."])
     +++ [EmptyString; "### Confirm"]
     +++ map bullet
          (or_else confirm
             ["Confirm meds taken/missed and any measurements taken."])
     +++ [EmptyString; "### Schedule / delegate"]
     +++ map bullet schedule).

Definition demo_action_planner (note_text : string) : result string :=
  lines <- action_planner_lines note_text ;;
  Ret (join nl lines).

(** ** Doctor Brief *)

Definition doctor_brief_lines (note_text : string) : result (list string) :=
  bp <- _find_bp note_text ;;
  let t := lower note_text in
  let bp_line :=
    match bp with
    | Some (_, _, raw) => "BP: " ++ raw ++ " (reported)"
    | None => "BP: not provided"
    end in
  let dizzy :=
    if contains "dizzy" t then "Dizziness: yes (reported)"
    else "Dizziness: not reported" in
  let missed :=
    if contains "missed" t then "Missed medication dose: yes (reported)"
    else "Missed medication dose: not reported" in
  Ret
    (["## 🩺 Doctor Brief (Demo Mode)";
      "### Summary (4–6 sentences)";
      "Caregiver reports increased fatigue today with reduced intake/activity. "
      ++ bp_line ++ ". " ++ dizzy ++ ". " ++ missed ++ ". "
      ++ "Hydration appears reduced. Mood described as lower/withdrawn.";
      EmptyString;
      "### Pertinent positives"]
     +++ (match bp with
          | Some (_, _, raw) => ["- Low BP reading reported: " ++ raw]
          | None => []
          end)
     +++ when (contains "dizzy" t) "- Dizziness when standing reported"
     +++ when (contains "missed" t) "- Missed a medication dose reported"
     +++ when (contains "very little water" t || contains "drank less" t)
           "- Reduced hydration reported"
     +++ [EmptyString;
          "### Questions for clinician";
          "- Could symptoms relate to hydration, medication timing, or blood pressure variability?";
          "- What parameters should trigger urgent evaluation (e.g., BP thresholds, worsening dizziness)?";
          "- Any recommended monitoring cadence for BP/symptoms over the next few days?";
          EmptyString;
          "### What to track before visit";
          "- BP readings with timestamps (if available)";
          "- Episodes of dizziness (timing, triggers, duration)";
          "- Food/fluid intake estimate";
          "- Meds taken/missed with approximate times"]).

Definition demo_doctor_brief (note_text : string) : result string :=
  lines <- doctor_brief_lines note_text ;;
  Ret (join nl lines).

(** ** Care Circle message *)

Definition urgent_line : string :=
  "If symptoms worsen, we should contact clinician / consider urgent care.".

Definition next_steps_line : string :=
  "- Next steps: encourage fluids/food if appropriate, recheck BP later, and monitor symptoms.".

(** The list [msg] before it is cut (source lines 225-236). *)
Definition care_circle_msg (note_text tone : string) : result (list string) :=
  let t := lower note_text in
  bp <- _find_bp note_text ;;
  Ret
    (["Quick update:"]
     +++ when (contains "dizzy" t) "- Had dizziness when standing today."
     +++ (match bp with
          | Some (_, _, raw) => ["- BP reading reported: " ++ raw ++ "."]
          | None => []
          end)
     +++ when (contains "missed" t)
           "- Missed at least one medication dose (noted)."
     +++ [next_steps_line]
     +++ when (startswith (lower tone) "urgent") urgent_line).

(** The message body: ["\n".join(msg[:7])]. *)
Definition care_circle_body (note_text tone : string) : result string :=
  msg <- care_circle_msg note_text tone ;;
  Ret (join nl (firstn 7 msg)).

Definition demo_care_circle_msg (note_text audience tone : string)
  : result string :=
  body <- care_circle_body note_text tone ;;
  Ret
    (join nl
       ["## 👥 Care Circle Message (Demo Mode)";
        "**Audience:** " ++ audience ++ " | **Tone:** " ++ tone;
        EmptyString;
        body]).

(** ** Caregiver Wellbeing *)

Definition strain_phrases : list string :=
  ["exhaust"; "overwhelm"; "can't"; "tired"; "stress"; "burnout"; "cry";
   "anxious"].

(** The strain cues listed in the report: [sorted(set(burnout_phrases))]. *)
Definition strain_cues (note_text : string) : list string :=
  let t := lower note_text in
  let burnout_phrases := _contains_any t strain_phrases in
  sorted (set_of burnout_phrases).

Definition wellbeing_signal_line (note_text : string) : string :=
  let t := lower note_text in
  let burnout_phrases := _contains_any t strain_phrases in
  match burnout_phrases with
  | [] => "- No explicit caregiver strain language detected in the note."
  | _ => "- Possible strain cues: " ++ join ", " (strain_cues note_text)
  end.

Definition caregiver_wellbeing_lines (note_text : string) : list string :=
  ["## 🧘 Caregiver Wellbeing (Demo Mode)";
   "### Signals (only if present)";
   wellbeing_signal_line note_text;
   EmptyString;
   "### 10-minute reset plan (practical)";
   "- Drink water + quick snack.";
   "- Send a 2-line status update to someone in the care circle.";
   "- Pick ONE task to do next; park the rest.";
   EmptyString;
   "### Delegate / share load";
   "- Ask someone to cover: a meal, a 30-minute visit, a pharmacy run, or a check-in call.";
   "- If nights are tough, rotate shifts (even 2–3 hour blocks).";
   EmptyString;
   "### Boundary reminder";
   "- You don’t have to do everything perfectly. You’re aiming for safety + consistency."].

Definition demo_caregiver_wellbeing (note_text : string) : result string :=
  Ret (join nl (caregiver_wellbeing_lines note_text)).

(** ** The model call, with its fallback *)

Definition dq : string := String (ascii_of_nat 34) EmptyString.

(** The sidebar settings read by the dispatch code. *)
Record settings : Type := {
  output_lang : string;
  mode : string;
  model : string;
  temperature : nat       (* the slider, in tenths *)
}.

(** What the process finds around it: whether [from openai import OpenAI]
    succeeded and the value of [OPENAI_API_KEY], if set. *)
Record environment : Type := {
  openai_loaded : bool;
  api_key : option string
}.

(** One chat-completion request. *)
Record request : Type := {
  req_api_key : option string;
  req_model : string;
  req_temperature : nat;
  req_system : string;
  req_user : string
}.

(** The provider: the content of the first choice, or the exception raised. *)
Definition provider : Type := request -> result string.

Inductive event : Type :=
| ModelCall (r : request)
| DemoCall.

Definition SYSTEM (cfg : settings) : string :=
  join nl
    ["You are a careful caregiving assistant.";
     "Rules:";
     "- Do NOT diagnose or claim medical certainty.";
     "- Only use information explicitly present in the caregiver note/context.";
     "- If something isn't mentioned, do not invent it.";
     "- Be concrete and actionable.";
     "- If urgent risk is strongly suggested, say: " ++ dq
       ++ "Consider urgent medical care" ++ dq ++ " without diagnosing.";
     "- Write output in " ++ output_lang cfg ++ ".";
     EmptyString].

(** [os.getenv(name, default)] *)
Definition getenv (v : option string) (default : string) : string :=
  match v with
  | Some x => x
  | None => default
  end.

Definition llm_available (cfg : settings) (env : environment) : bool :=
  if startswith (mode cfg) "Force Demo" then false
  else if negb (openai_loaded env) then false
  else negb (String.eqb (getenv (api_key env) EmptyString) EmptyString).

(** The test on the text of a caught exception (source lines 302-303). *)
Definition quota_error (e : string) : bool :=
  let msg := lower e in
  contains "insufficient_quota" msg
  || contains "exceeded your current quota" msg
  || contains "429" msg.

(** The request sent by [client.chat.completions.create] (source lines
    290-298). *)
Definition request_of (cfg : settings) (env : environment) (prompt : string)
  : request :=
  {| req_api_key := api_key env;
     req_model := model cfg;
     req_temperature := temperature cfg;
     req_system := SYSTEM cfg;
     req_user := prompt |}.

(** [call_llm_or_demo]: the events, in order, and the outcome. *)
Definition call_llm_or_demo {A : Type} (cfg : settings) (env : environment)
  (llm : provider) (prompt : string) (demo_fn : A -> result string)
  (demo_args : A) : list event * result string :=
  if negb (llm_available cfg env) then ([DemoCall], demo_fn demo_args)
  else
    let req := request_of cfg env prompt in
    match llm req with
    | Ret content => ([ModelCall req], Ret (strip content))
    | Raise e =>
        if quota_error e then ([ModelCall req; DemoCall], demo_fn demo_args)
        else ([ModelCall req], Raise e)
    end.

(** ** The five tabs *)

Inductive kind : Type :=
| RiskRadar | ActionPlanner | DoctorBrief | CareCircle | Wellbeing.

(** The inputs on the page. *)
Record inputs : Type := {
  note : string;
  context : string;
  audience : string;
  tone : string;
  caregiver_note : string
}.

Definition prompt_of (k : kind) (i : inputs) : string :=
  match k with
  | RiskRadar =>
      join nl
        [EmptyString;
         "Create a Risk Radar from the caregiver note.";
         EmptyString; "Context:"; context i;
         EmptyString; "Caregiver note:"; note i;
         EmptyString;
         "Output format (use headings):";
         "1) Urgency level: LOW / MODERATE / HIGH (non-diagnostic)";
         "2) Signals detected (bullets). For each signal:";
         "   - Why it was flagged (include exact quote from note)";
         "   - Suggested action: monitor / monitor closely / consider urgent medical care";
         "3) What to monitor next (bullets)";
         "Rules: Do NOT diagnose. Do NOT invent details.";
         EmptyString]
  | ActionPlanner =>
      join nl
        [EmptyString;
         "Generate a prioritized caregiver Action Plan from the note.";
         EmptyString; "Context:"; context i;
         EmptyString; "Caregiver note:"; note i;
         EmptyString;
         "Output format (use headings):";
         "- Do NOW (3–6 bullets)";
         "- Monitor (3–6 bullets)";
         "- Confirm (missing info to clarify) (2–6 bullets)";
         "- Schedule / delegate (2–5 bullets)";
         "Rules: Do NOT diagnose. Use only note/context.";
         EmptyString]
  | DoctorBrief =>
      join nl
        [EmptyString;
         "Create a clinician-friendly brief based strictly on the note.";
         EmptyString; "Context:"; context i;
         EmptyString; "Caregiver note:"; note i;
         EmptyString;
         "Output format (use headings):";
         "1) 4–6 sentence summary (no diagnosis)";
         "2) Pertinent positives (bullets)";
         "3) Medication adherence (bullets; only what is stated)";
         "4) Key questions for clinician (2–6)";
         "5) What to track before visit (3–8)";
         "Rules: Use only note/context. No invented negatives.";
         EmptyString]
  | CareCircle =>
      join nl
        [EmptyString;
         "Write a short message for " ++ audience i ++ ".";
         "Tone: " ++ tone i;
         EmptyString; "Context:"; context i;
         EmptyString; "Caregiver note:"; note i;
         EmptyString;
         "Constraints:";
         "- 3–7 short lines max";
         "- Include: 1) key update, 2) what help is needed, 3) next step";
         "- If urgent risk is strongly suggested by the note, recommend contacting clinician/urgent care (non-diagnostic).";
         "No diagnosis. Use only note/context.";
         EmptyString]
  | Wellbeing =>
      join nl
        [EmptyString;
         "Assess caregiver wellbeing and suggest non-medical support steps.";
         EmptyString; "Context:"; context i;
         EmptyString; "Caregiver note:"; note i;
         EmptyString; "Caregiver's self-note:"; caregiver_note i;
         EmptyString;
         "Output format:";
         "1) Burnout/strain signals (ONLY if present; include quote if you cite a signal)";
         "2) 10-minute reset plan (practical)";
         "3) Delegate/share-load ideas (concrete examples)";
         "4) Boundary reminder (1–2 lines)";
         "Rules: Non-medical. No diagnosis. Use only provided text.";
         EmptyString]
  end.

(** The heuristic generator of each kind, on the inputs of its tab. *)
Definition heuristic_of (k : kind) (i : inputs) : result string :=
  match k with
  | RiskRadar => demo_risk_radar (note i)
  | ActionPlanner => demo_action_planner (note i)
  | DoctorBrief => demo_doctor_brief (note i)
  | CareCircle => demo_care_circle_msg (note i) (audience i) (tone i)
  | Wellbeing =>
      demo_caregiver_wellbeing
        (note i ++ nl ++ nl ++ "Caregiver note: " ++ caregiver_note i)
  end.

(** Pressing the button of a tab (source lines 343, 369, 396, 425, 461). *)
Definition run_tab (cfg : settings) (env : environment) (llm : provider)
  (k : kind) (i : inputs) : list event * result string :=
  let prompt := prompt_of k i in
  match k with
  | RiskRadar => call_llm_or_demo cfg env llm prompt demo_risk_radar (note i)
  | ActionPlanner =>
      call_llm_or_demo cfg env llm prompt demo_action_planner (note i)
  | DoctorBrief =>
      call_llm_or_demo cfg env llm prompt demo_doctor_brief (note i)
  | CareCircle =>
      call_llm_or_demo cfg env llm prompt
        (fun '(n, a, t) => demo_care_circle_msg n a t)
        (note i, audience i, tone i)
  | Wellbeing =>
      let combined :=
        note i ++ nl ++ nl ++ "Caregiver note: " ++ caregiver_note i in
      call_llm_or_demo cfg env llm prompt demo_caregiver_wellbeing combined
  end.

(** ** Notions used to state the properties *)

(** [p] occurs in [t]. *)
Definition occurs (p t : string) : Prop :=
  exists pre post, t = pre ++ p ++ post.

(** A bound [hi] of a repetition allows [n] characters. *)
Definition within (hi : option nat) (n : nat) : Prop :=
  match hi with
  | Some h => n <= h
  | None => True
  end.

(** What a match of a sequence of items is, without the order in which the
    matcher looks for it: the text splits into the pieces of the items. *)
Inductive matches : list item -> option ascii -> string -> list string -> Prop :=
| M_nil prev s : matches [] prev s []
| M_bnd r prev s ps :
    at_boundary prev s = true ->
    matches r prev s ps ->
    matches (Bnd :: r) prev s (EmptyString :: ps)
| M_rep p lo hi r prev x s ps :
    all_chars p x = true ->
    lo <= length x ->
    within hi (length x) ->
    matches r (last_char prev x) s ps ->
    matches (Rep p lo hi :: r) prev (x ++ s) (x :: ps)
| M_opt_take lit r prev s ps :
    matches r (last_char prev lit) s ps ->
    matches (Opt lit :: r) prev (lit ++ s) (lit :: ps)
| M_opt_skip lit r prev s ps :
    matches r prev s ps ->
    matches (Opt lit :: r) prev s (EmptyString :: ps).


(** Two or three decimal digits. *)
Definition digits23 (d : string) : Prop :=
  all_chars is_digit d = true /\ 2 <= length d <= 3.

(** A reading in the note, after [pre]: two or three digits, white space, a
    slash, white space, two or three digits, with no word character just
    before or just after. *)
Definition bp_reading (note_text pre d1 w1 w2 d2 post : string) : Prop :=
  note_text = pre ++ d1 ++ w1 ++ "/" ++ w2 ++ d2 ++ post
  /\ digits23 d1 /\ all_chars is_space w1 = true
  /\ all_chars is_space w2 = true /\ digits23 d2
  /\ is_word_at (last_char None pre) = false
  /\ is_word_at (head post) = false.

(** The findings raised by keywords: all but the blood-pressure one. *)
Definition keyword_findings : list risk :=
  [("Dizziness on standing", "Evidence: 'dizzy / standing' mentioned",
    "monitor_closely");
   ("Breathing difficulty", "Evidence: 'short of breath' mentioned",
    "consider_urgent");
   ("Potential emergency symptom", "Evidence: chest pain/fainting mentioned",
    "consider_urgent");
   ("Fall risk", "Evidence: fall/trip/walker mentioned", "monitor_closely");
   ("Low hydration risk", "Evidence: low water intake mentioned", "monitor")].

(** The lines under a heading of a report, up to the next empty line or
    heading. *)
Fixpoint bucket_head (ls : list string) : list string :=
  match ls with
  | [] => []
  | l :: r =>
      if String.eqb l EmptyString || prefix "#" l then []
      else l :: bucket_head r
  end.

Fixpoint bucket (heading : string) (ls : list string) : list string :=
  match ls with
  | [] => []
  | l :: r => if String.eqb l heading then bucket_head r else bucket heading r
  end.

(** Strictly before, in the order of [sorted]. *)
Definition str_lt (a b : string) : Prop := String.ltb a b = true.

(** The number of line feeds in a text, and in the entries of a list. *)
Fixpoint count_nl (s : string) : nat :=
  match s with
  | EmptyString => 0
  | String c r =>
      (if Ascii.eqb c (ascii_of_nat 10) then 1 else 0) + count_nl r
  end.

Definition count_nls (xs : list string) : nat :=
  fold_right (fun x n => count_nl x + n) 0 xs.

(** The quota and rate-limit markers looked for in the text of an error. *)
Definition quota_markers : list string :=
  ["insufficient_quota"; "exceeded your current quota"; "429"].

(** The text of an error, whatever its case, contains a marker. *)
Definition quota_text (e : string) : Prop :=
  exists m, In m quota_markers /\ occurs m (lower e).

(** How a finding is shown: its title, its label and its evidence. *)
Definition shown_as (r : risk) (l : string) : Prop :=
  exists tag,
    In (risk_level r, tag) level_tags
    /\ l = "- **" ++ risk_title r ++ "** — *" ++ tag ++ "*  " ++ nl ++ "  "
           ++ risk_evidence r.

(** The evidence of a finding: the reading quoted from the note for the
    blood-pressure finding, a fixed phrase for the others. *)
Definition evidence_ok (note_text : string) (r : risk) : Prop :=
  (exists raw,
      r = ("Low blood pressure reading", "Evidence: '" ++ raw ++ "'",
           "monitor_closely")
      /\ occurs raw note_text)
  \/ In r keyword_findings.

(** ** Notions for the further properties *)

(** The trigger phrases of the rule table (source lines 93-105), by the
    severity they raise. *)
Definition urgent_keywords : list string :=
  ["short of breath"; "difficulty breathing"; "chest pain"; "fainted";
   "passed out"].

Definition closely_keywords : list string :=
  ["dizzy"; "dizziness"; "lightheaded"; "fell"; "trip"; "walker"].

(** One of the phrases is in the text. *)
Definition has_any (kws : list string) (t : string) : bool :=
  existsb (fun k => contains k t) kws.

(** The finding raised by a low reading (source line 91). *)
Definition low_bp_finding (raw : string) : risk :=
  ("Low blood pressure reading", "Evidence: '" ++ raw ++ "'",
   "monitor_closely").

(** The titles of the findings, in the order of the rule table. *)
Definition rule_titles : list string :=
  ["Low blood pressure reading"; "Dizziness on standing";
   "Breathing difficulty"; "Potential emergency symptom"; "Fall risk";
   "Low hydration risk"].



(** ** Sample inputs

    The note and the context the page starts with, and settings for the two
    run modes. *)

Definition default_note : string :=
  join nl
    ["Dad seemed more tired than usual this morning and skipped breakfast.";
     "Blood pressure at 11 AM was 92/58.";
     "He felt dizzy when standing up and needed help walking to the bathroom.";
     "Took his blood pressure medication but missed his afternoon vitamin D.";
     "Drank very little water today and did not go for his usual evening walk.";
     "Mood seemed quiet and withdrawn."].

Definition default_inputs : inputs :=
  {| note := default_note;
     context := "Older adult; diabetes; usually walks daily; takes metformin + vitamin D; on blood pressure medication.";
     audience := "Family group chat";
     tone := "Neutral + factual";
     caregiver_note := "I feel exhausted this week and I'm overwhelmed managing nights." |}.

Definition auto_settings : settings :=
  {| output_lang := "English";
     mode := "Auto (OpenAI if available, else Demo Mode)";
     model := "gpt-4o-mini";
     temperature := 2 |}.

Definition forced_settings : settings :=
  {| output_lang := "English";
     mode := "Force Demo Mode (no API)";
     model := "gpt-4o-mini";
     temperature := 2 |}.

Definition keyed_environment : environment :=
  {| openai_loaded := true; api_key := Some "sk-sample" |}.

(** A provider that always answers with a rate-limit error. *)
Definition rate_limited : provider :=
  fun _ => Raise "Error code: 429 - Rate limit reached for requests".

(** * Properties *)

(** ** Text *)

Lemma append_nil_r (s : string) : s ++ EmptyString = s.
Proof. induction s as [|c s IH]; simpl; [reflexivity | now rewrite IH]. Qed.

Lemma append_assoc (a b c : string) : (a ++ b) ++ c = a ++ b ++ c.
Proof. induction a as [|x a IH]; simpl; [reflexivity | now rewrite IH]. Qed.

Lemma length_append (a b : string) : length (a ++ b) = length a + length b.
Proof. induction a as [|x a IH]; simpl; [reflexivity | now rewrite IH]. Qed.

Lemma take_drop (k : nat) (s : string) : take k s ++ drop k s = s.
Proof.
  revert s; induction k as [|k IH]; intros [|c s]; simpl; try reflexivity.
  now rewrite IH.
Qed.

Lemma length_take (k : nat) (s : string) :
  k <= length s -> length (take k s) = k.
Proof.
  revert s; induction k as [|k IH]; intros [|c s]; simpl; intros H;
    try reflexivity; try lia.
  rewrite IH; [reflexivity | lia].
Qed.

Lemma take_append (x s : string) : take (length x) (x ++ s) = x.
Proof. induction x as [|c x IH]; simpl; [now destruct s | now rewrite IH]. Qed.

Lemma drop_append (x s : string) : drop (length x) (x ++ s) = s.
Proof. induction x as [|c x IH]; simpl; [now destruct s | exact IH]. Qed.

Lemma last_char_append (prev : option ascii) (a b : string) :
  last_char prev (a ++ b) = last_char (last_char prev a) b.
Proof. revert prev; induction a as [|c a IH]; intros prev; simpl; auto. Qed.

Lemma append_inv_length (a b a' b' : string) :
  a ++ b = a' ++ b' -> length a = length a' -> a = a' /\ b = b'.
Proof.
  revert a'; induction a as [|c a IH]; intros [|c' a']; simpl; intros E L;
    try discriminate; auto.
  injection E as -> E. destruct (IH a' E) as [-> ->]; [lia | auto].
Qed.

Lemma all_chars_append (p : ascii -> bool) (a b : string) :
  all_chars p (a ++ b) = all_chars p a && all_chars p b.
Proof.
  induction a as [|c a IH]; simpl; [reflexivity|].
  now rewrite IH, andb_assoc.
Qed.

Lemma prefix_append (p s : string) : prefix p (p ++ s) = true.
Proof.
  induction p as [|c p IH]; simpl; [now destruct s|].
  destruct (ascii_dec c c) as [_|N]; [exact IH | now elim N].
Qed.

Lemma prefix_split (p s : string) :
  prefix p s = true -> s = p ++ drop (length p) s.
Proof.
  revert s; induction p as [|c p IH]; intros [|d s]; simpl; intros H;
    try reflexivity; try discriminate.
  destruct (ascii_dec c d) as [->|_]; [|discriminate].
  now rewrite <- IH.
Qed.

(** [contains] decides [occurs]. *)
Lemma contains_occurs (p t : string) : contains p t = true <-> occurs p t.
Proof.
  split.
  - induction t as [|c t IH]; cbn [contains].
    + destruct (prefix p EmptyString) eqn:E; intros H; [|discriminate H].
      exists EmptyString, (drop (length p) EmptyString).
      now apply prefix_split.
    + destruct (prefix p (String c t)) eqn:E; intros H.
      * exists EmptyString, (drop (length p) (String c t)).
        now apply prefix_split.
      * destruct (IH H) as (pre & post & ->).
        now exists (String c pre), post.
  - intros (pre & post & ->).
    induction pre as [|c pre IH].
    + change (EmptyString ++ p ++ post) with (p ++ post).
      destruct (p ++ post) eqn:E; cbn [contains]; rewrite <- E, prefix_append;
        reflexivity.
    + change (String c pre ++ p ++ post) with (String c (pre ++ p ++ post)).
      cbn [contains]. rewrite IH.
      now destruct (prefix p (String c (pre ++ p ++ post))).
Qed.

Lemma occurs_trans (a b c : string) : occurs a b -> occurs b c -> occurs a c.
Proof.
  intros (p1 & q1 & ->) (p2 & q2 & ->).
  exists (p2 ++ p1), (q1 ++ q2). now rewrite !append_assoc.
Qed.

Lemma join_snoc (sep : string) (xs : list string) (x : string) :
  exists pre, join sep (xs +++ [x]) = pre ++ x.
Proof.
  induction xs as [|y xs IH]; simpl.
  - now exists EmptyString.
  - destruct IH as (pre & E). rewrite E.
    destruct (xs +++ [x]) eqn:D; [now destruct xs|].
    exists (y ++ sep ++ pre). now rewrite !append_assoc.
Qed.

Lemma lower_char_idem (c : ascii) : lower_char (lower_char c) = lower_char c.
Proof. destruct c as [[] [] [] [] [] [] [] []]; reflexivity. Qed.

Lemma lower_idem (s : string) : lower (lower s) = lower s.
Proof.
  induction s as [|c s IH]; simpl; [reflexivity|].
  unfold lower in *; simpl. now rewrite lower_char_idem, IH.
Qed.

Lemma digit_is_word (c : ascii) : is_digit c = true -> is_word c = true.
Proof. unfold is_word. now intros ->. Qed.

Lemma space_not_digit (c : ascii) : is_space c = true -> is_digit c = false.
Proof.
  destruct c as [[] [] [] [] [] [] [] []]; intros H;
    (reflexivity || discriminate H).
Qed.

(** ** The matcher *)

Lemma span_le_length (p : ascii -> bool) (hi : option nat) (s : string) :
  span p hi s <= length s.
Proof.
  revert hi; induction s as [|c s IH]; intros hi; simpl; [lia|].
  destruct (p c); [|lia].
  destruct hi as [[|h]|]; [lia | specialize (IH (Some h)) | specialize (IH None)];
    lia.
Qed.

Lemma span_within (p : ascii -> bool) (hi : option nat) (s : string) :
  within hi (span p hi s).
Proof.
  revert hi; induction s as [|c s IH]; intros hi; simpl.
  - destruct hi; simpl; [lia | exact I].
  - destruct (p c); [|destruct hi; simpl; [lia | exact I]].
    destruct hi as [[|h]|]; simpl; [lia | | exact I].
    specialize (IH (Some h)); simpl in IH; lia.
Qed.

Lemma span_take (p : ascii -> bool) (hi : option nat) (s : string) (k : nat) :
  k <= span p hi s -> all_chars p (take k s) = true.
Proof.
  revert hi k; induction s as [|c s IH]; intros hi [|k]; simpl; intros H;
    try reflexivity.
  destruct (p c) eqn:E; [|lia]. simpl.
  destruct hi as [[|h]|]; [lia | apply (IH (Some h)) | apply (IH None)]; lia.
Qed.

Lemma span_reaches (p : ascii -> bool) (hi : option nat) (x s : string) :
  all_chars p x = true -> within hi (length x) ->
  length x <= span p hi (x ++ s).
Proof.
  revert hi; induction x as [|c x IH]; intros hi A W; simpl; [lia|].
  simpl in A. apply andb_true_iff in A as [Ac Ax]. rewrite Ac.
  destruct hi as [[|h]|]; simpl in W; [lia | | ].
  - specialize (IH (Some h) Ax). simpl in IH. specialize (IH ltac:(lia)). lia.
  - specialize (IH None Ax I). lia.
Qed.

Lemma try_down_some {A : Type} (f : nat -> option A) (lo n : nat) (r : A) :
  try_down f lo n = Some r -> exists k, lo <= k <= n /\ f k = Some r.
Proof.
  induction n as [|n IH]; simpl.
  - destruct lo; simpl; [|discriminate].
    destruct (f 0) eqn:E; [|discriminate].
    intros [= ->]. exists 0; split; [lia | exact E].
  - destruct (S n <? lo) eqn:L; [discriminate|].
    apply Nat.ltb_ge in L.
    destruct (f (S n)) eqn:E.
    + intros [= ->]. exists (S n); split; [lia | exact E].
    + intros H. destruct (IH H) as (k & Hk & Fk).
      exists k; split; [lia | exact Fk].
Qed.

Lemma try_down_none {A : Type} (f : nat -> option A) (lo n : nat) :
  try_down f lo n = None -> forall k, lo <= k <= n -> f k = None.
Proof.
  induction n as [|n IH]; simpl.
  - destruct lo; simpl; [|intros; lia].
    destruct (f 0) eqn:E; [discriminate|].
    intros _ k Hk. now replace k with 0 by lia.
  - destruct (S n <? lo) eqn:L.
    + apply Nat.ltb_lt in L. intros; lia.
    + destruct (f (S n)) eqn:E; [discriminate|].
      intros H k Hk. destruct (Nat.eq_dec k (S n)) as [->|N]; [exact E|].
      apply (IH H); lia.
Qed.

(** What the matcher returns is a match. *)
Lemma match_here_sound (its : list item) :
  forall prev s ps, match_here its prev s = Some ps -> matches its prev s ps.
Proof.
  induction its as [|it r IH]; intros prev s ps; simpl.
  - intros [= <-]. constructor.
  - destruct it as [|p lo hi|lit].
    + destruct (at_boundary prev s) eqn:B; [|discriminate].
      destruct (match_here r prev s) eqn:M; simpl; [|discriminate].
      intros [= <-]. constructor; auto.
    + intros H. apply try_down_some in H as (k & Hk & F).
      destruct (match_here r (last_char prev (take k s)) (drop k s)) eqn:M;
        simpl in F; [|discriminate].
      injection F as <-.
      assert (L : length (take k s) = k).
      { apply length_take. pose proof (span_le_length p hi s). lia. }
      rewrite <- (take_drop k s) at 1.
      constructor; auto.
      * apply (span_take p hi); lia.
      * lia.
      * rewrite L. pose proof (span_within p hi s) as W.
        destruct hi; simpl in *; [lia | exact I].
    + assert (Skip : option_map (cons EmptyString) (match_here r prev s) = Some ps
                     -> matches (Opt lit :: r) prev s ps).
      { destruct (match_here r prev s) eqn:M; simpl; [|discriminate].
        intros [= <-]. apply M_opt_skip; auto. }
      destruct (prefix lit s) eqn:P; [|exact Skip].
      destruct (match_here r (last_char prev lit) (drop (length lit) s)) eqn:M;
        simpl; [|exact Skip].
      intros [= <-]. rewrite (prefix_split lit s P) at 1.
      apply M_opt_take; auto.
Qed.

(** Where there is a match, the matcher finds one. *)
Lemma match_here_complete (its : list item) (prev : option ascii) (s : string)
  (ps : list string) :
  matches its prev s ps -> exists ps', match_here its prev s = Some ps'.
Proof.
  induction 1 as [prev s|r prev s ps B _ IH|p lo hi r prev x s ps A L W _ IH
                 |lit r prev s ps _ IH|lit r prev s ps _ IH]; simpl.
  - eauto.
  - rewrite B. destruct IH as (ps' & ->). simpl; eauto.
  - destruct (try_down
                (fun k => option_map (cons (take k (x ++ s)))
                   (match_here r (last_char prev (take k (x ++ s)))
                      (drop k (x ++ s))))
                lo (span p hi (x ++ s))) eqn:T; [eauto|].
    pose proof (try_down_none _ _ _ T (length x)
                  (conj L (span_reaches p hi x s A W))) as N.
    simpl in N. rewrite take_append, drop_append in N.
    destruct IH as (ps' & E). rewrite E in N. discriminate N.
  - rewrite prefix_append, drop_append.
    destruct IH as (ps' & ->). simpl; eauto.
  - destruct IH as (ps' & ->). simpl.
    destruct (prefix lit s); [|eauto].
    destruct (option_map _ _); eauto.
Qed.

(** [search_from] returns the leftmost position where the matcher
    succeeds. *)
Lemma search_from_some (its : list item) (s : string) :
  forall prev pos r,
    search_from its prev s pos = Some r ->
    exists pre suf ps,
      s = pre ++ suf /\ r = (pos + length pre, ps)
      /\ match_here its (last_char prev pre) suf = Some ps
      /\ forall p q, s = p ++ q -> length p < length pre ->
                     match_here its (last_char prev p) q = None.
Proof.
  induction s as [|c s IH]; intros prev pos r; simpl.
  - destruct (match_here its prev EmptyString) eqn:M; [|discriminate].
    intros [= <-]. exists EmptyString, EmptyString, l.
    split; [reflexivity|]. split; [simpl; f_equal; lia|].
    split; [exact M|]. simpl; intros; lia.
  - destruct (match_here its prev (String c s)) eqn:M.
    + intros [= <-]. exists EmptyString, (String c s), l.
      split; [reflexivity|]. split; [simpl; f_equal; lia|].
      split; [exact M|]. simpl; intros; lia.
    + intros H. destruct (IH _ _ _ H) as (pre & suf & ps & -> & -> & Mh & Min).
      exists (String c pre), suf, ps.
      split; [reflexivity|]. split; [simpl; f_equal; lia|].
      split; [exact Mh|].
      intros [|d p] q E Lp; simpl in *.
      * now subst q.
      * injection E as <- E. apply Min; [exact E | lia].
Qed.

Lemma search_from_none (its : list item) (s : string) :
  forall prev pos,
    search_from its prev s pos = None ->
    forall p q, s = p ++ q -> match_here its (last_char prev p) q = None.
Proof.
  induction s as [|c s IH]; intros prev pos; simpl.
  - destruct (match_here its prev EmptyString) eqn:M; [discriminate|].
    intros _ [|d p] q E; simpl in E; [now subst q | discriminate E].
  - destruct (match_here its prev (String c s)) eqn:M; [discriminate|].
    intros H [|d p] q E; simpl in *.
    + now subst q.
    + injection E as <- E. now apply (IH _ _ H).
Qed.

Lemma matches_nil_inv (prev : option ascii) (s : string) (ps : list string) :
  matches [] prev s ps -> ps = [].
Proof. now inversion 1. Qed.

Lemma matches_bnd_inv (r : list item) (prev : option ascii) (s : string)
  (ps : list string) :
  matches (Bnd :: r) prev s ps ->
  at_boundary prev s = true
  /\ exists ps', ps = EmptyString :: ps' /\ matches r prev s ps'.
Proof. inversion 1; subst; eauto. Qed.

Lemma matches_rep_inv (p : ascii -> bool) (lo : nat) (hi : option nat)
  (r : list item) (prev : option ascii) (s : string) (ps : list string) :
  matches (Rep p lo hi :: r) prev s ps ->
  exists x s' ps',
    s = x ++ s' /\ ps = x :: ps' /\ all_chars p x = true /\ lo <= length x
    /\ within hi (length x) /\ matches r (last_char prev x) s' ps'.
Proof. inversion 1; subst. exists x, s0, ps0. auto 10. Qed.

Lemma head_class (p : ascii -> bool) (x s : string) :
  all_chars p x = true -> 1 <= length x ->
  exists c, head (x ++ s) = Some c /\ p c = true.
Proof.
  destruct x as [|c x]; simpl; intros A L; [lia|].
  apply andb_true_iff in A as [Ac _]. eauto.
Qed.

Lemma last_char_class (p : ascii -> bool) (x : string) :
  forall prev, all_chars p x = true -> 1 <= length x ->
               exists c, last_char prev x = Some c /\ p c = true.
Proof.
  induction x as [|c x IH]; simpl; intros prev A L; [lia|].
  apply andb_true_iff in A as [Ac Ax].
  destruct x as [|d x]; [simpl; eauto|].
  apply IH; [exact Ax | simpl; lia].
Qed.

Lemma lit_char_piece (c : ascii) (x : string) :
  all_chars (Ascii.eqb c) x = true -> 1 <= length x -> within (Some 1) (length x) ->
  x = String c EmptyString.
Proof.
  destruct x as [|d [|e x]]; simpl; intros A L W; try lia.
  rewrite andb_true_r in A. apply Ascii.eqb_eq in A. now subst.
Qed.

Lemma lit_char_ok (c : ascii) :
  all_chars (Ascii.eqb c) (String c EmptyString) = true.
Proof. simpl. now rewrite Ascii.eqb_refl. Qed.

(** A match of the blood-pressure pattern is a reading, and conversely. *)
Lemma bp_matches_reading (pre s : string) (ps : list string) :
  matches bp_re (last_char None pre) s ps ->
  exists d1 w1 w2 d2 post,
    ps = [EmptyString; d1; w1; "/"; w2; d2; EmptyString]
    /\ bp_reading (pre ++ s) pre d1 w1 w2 d2 post.
Proof.
  unfold bp_re, lit_char. intros M.
  apply matches_bnd_inv in M as (B1 & ps1 & -> & M).
  apply matches_rep_inv in M as (d1 & s1 & ps2 & -> & -> & D1 & L1 & W1 & M).
  apply matches_rep_inv in M as (w1 & s2 & ps3 & -> & -> & S1 & _ & _ & M).
  apply matches_rep_inv in M as (sl & s3 & ps4 & -> & -> & C & Lc & Wc & M).
  apply matches_rep_inv in M as (w2 & s4 & ps5 & -> & -> & S2 & _ & _ & M).
  apply matches_rep_inv in M as (d2 & s5 & ps6 & -> & -> & D2 & L2 & W2 & M).
  apply matches_bnd_inv in M as (B2 & ps7 & -> & M).
  apply matches_nil_inv in M as ->.
  apply lit_char_piece in C as ->; auto.
  simpl in W1, W2.
  exists d1, w1, w2, d2, s5. split; [reflexivity|].
  unfold bp_reading, digits23. repeat (split; auto).
  - unfold at_boundary in B1.
    destruct (head_class is_digit d1 (w1 ++ "/" ++ w2 ++ d2 ++ s5) D1)
      as (c & E & Dc); [lia|].
    rewrite E in B1. simpl in B1. rewrite (digit_is_word c Dc) in B1.
    now destruct (is_word_at (last_char None pre)).
  - unfold at_boundary in B2.
    match type of B2 with
    | xorb (is_word_at (last_char ?q d2)) _ = true =>
        destruct (last_char_class is_digit d2 q D2) as (c & E & Dc); [lia|];
          rewrite E in B2
    end.
    simpl in B2. rewrite (digit_is_word c Dc) in B2.
    now destruct (is_word_at (head s5)).
Qed.

Lemma bp_reading_matches (note_text pre d1 w1 w2 d2 post : string) :
  bp_reading note_text pre d1 w1 w2 d2 post ->
  matches bp_re (last_char None pre)
    (d1 ++ w1 ++ "/" ++ w2 ++ d2 ++ post)
    [EmptyString; d1; w1; "/"; w2; d2; EmptyString].
Proof.
  intros (_ & (D1 & L1) & S1 & S2 & (D2 & L2) & B1 & B2).
  unfold bp_re, lit_char.
  apply M_bnd.
  { unfold at_boundary.
    destruct (head_class is_digit d1 (w1 ++ "/" ++ w2 ++ d2 ++ post) D1)
      as (c & -> & Dc); [lia|].
    simpl. now rewrite B1, (digit_is_word c Dc). }
  apply M_rep; [exact D1 | lia | simpl; lia |].
  apply M_rep; [exact S1 | lia | exact I |].
  apply (M_rep _ _ _ _ _ "/"); [apply lit_char_ok | simpl; lia | simpl; lia |].
  apply M_rep; [exact S2 | lia | exact I |].
  apply M_rep; [exact D2 | lia | simpl; lia |].
  apply M_bnd; [|constructor].
  unfold at_boundary.
  match goal with
  | |- xorb (is_word_at (last_char ?q d2)) _ = true =>
      destruct (last_char_class is_digit d2 q D2) as (c & -> & Dc); [lia|]
  end.
  simpl. now rewrite B2, (digit_is_word c Dc).
Qed.

(** A run of one class that stops at a character outside the class is
    determined by the text. *)
Lemma class_split_unique (p : ascii -> bool) (x : string) :
  forall x' s s',
    all_chars p x = true -> all_chars p x' = true ->
    (forall c, head s = Some c -> p c = false) ->
    (forall c, head s' = Some c -> p c = false) ->
    x ++ s = x' ++ s' -> x = x' /\ s = s'.
Proof.
  induction x as [|c x IH]; intros [|c' x'] s s' A A' H H' E; simpl in *.
  - auto.
  - subst s. apply andb_true_iff in A' as [Ac _].
    rewrite (H c' eq_refl) in Ac. discriminate Ac.
  - subst s'. apply andb_true_iff in A as [Ac _].
    rewrite (H' c eq_refl) in Ac. discriminate Ac.
  - injection E as <- E.
    apply andb_true_iff in A as [_ A]. apply andb_true_iff in A' as [_ A'].
    destruct (IH x' s s' A A' H H' E) as [-> ->]. auto.
Qed.

Lemma head_spaces_then (w r : string) (c0 c : ascii) :
  all_chars is_space w = true ->
  head (w ++ String c0 r) = Some c -> c = c0 \/ is_space c = true.
Proof.
  destruct w as [|d w]; simpl; intros A [= <-]; auto.
  apply andb_true_iff in A as [Ad _]. auto.
Qed.

Lemma head_digits_then (d r : string) (c : ascii) :
  all_chars is_digit d = true -> 1 <= length d ->
  head (d ++ r) = Some c -> is_digit c = true.
Proof.
  intros A L E. destruct (head_class is_digit d r A L) as (c' & E' & Dc).
  congruence.
Qed.

Lemma not_word_not_digit (s : string) (c : ascii) :
  is_word_at (head s) = false -> head s = Some c -> is_digit c = false.
Proof.
  intros W E. rewrite E in W. simpl in W.
  destruct (is_digit c) eqn:D; [|reflexivity].
  now rewrite (digit_is_word c D) in W.
Qed.

(** There is at most one reading at a position of the note. *)
Lemma bp_reading_unique (note_text pre d1 w1 w2 d2 post pre' e1 v1 v2 e2 q : string) :
  bp_reading note_text pre d1 w1 w2 d2 post ->
  bp_reading note_text pre' e1 v1 v2 e2 q ->
  length pre = length pre' ->
  pre = pre' /\ d1 = e1 /\ w1 = v1 /\ w2 = v2 /\ d2 = e2 /\ post = q.
Proof.
  intros (E & (D1 & L1) & S1 & S2 & (D2 & L2) & _ & B)
         (E' & (D1' & L1') & S1' & S2' & (D2' & L2') & _ & B') L.
  rewrite E in E'. apply append_inv_length in E' as [<- E']; [|exact L].
  apply (class_split_unique is_digit) in E' as [<- E']; auto.
  2,3: intros c Hc; apply head_spaces_then in Hc as [->|Hc]; auto using space_not_digit.
  apply (class_split_unique is_space) in E' as [<- E']; auto.
  2,3: now intros c [= <-].
  injection E' as E'.
  apply (class_split_unique is_space) in E' as [<- E']; auto.
  2,3: intros c Hc; apply head_digits_then in Hc; auto; try lia;
       destruct (is_space c) eqn:Sc; auto;
       apply space_not_digit in Sc; congruence.
  apply (class_split_unique is_digit) in E' as [<- E']; auto.
  2: intros c Hc; exact (not_word_not_digit post c B Hc).
  2: intros c Hc; exact (not_word_not_digit q c B' Hc).
  auto 10.
Qed.

Lemma int_digits (d : string) :
  all_chars is_digit d = true -> 1 <= length d ->
  int (Some d) = Ret (digits_value 0 d).
Proof.
  intros A L. unfold int. rewrite A.
  destruct d; [simpl in L; lia | reflexivity].
Qed.

(** What [_find_bp] returns: nothing when the note has no reading, and
    otherwise the leftmost reading. *)
Lemma find_bp_spec (text : string) :
  (_find_bp text = Ret None
   /\ forall pre d1 w1 w2 d2 post, ~ bp_reading text pre d1 w1 w2 d2 post)
  \/ (exists pre d1 w1 w2 d2 post,
        bp_reading text pre d1 w1 w2 d2 post
        /\ _find_bp text
           = Ret (Some (digits_value 0 d1, digits_value 0 d2,
                        d1 ++ w1 ++ "/" ++ w2 ++ d2))
        /\ forall p e1 v1 v2 e2 q,
             bp_reading text p e1 v1 v2 e2 q -> length pre <= length p).
Proof.
  unfold _find_bp, search.
  destruct (search_from bp_re None text 0) as [[pos ps]|] eqn:S.
  - right.
    apply search_from_some in S as (pre & suf & ps' & -> & [= _ <-] & M & Min).
    pose proof (match_here_sound _ _ _ _ M) as Mt.
    apply bp_matches_reading in Mt as (d1 & w1 & w2 & d2 & post & -> & R).
    exists pre, d1, w1, w2, d2, post. split; [exact R|].
    destruct R as (E & (D1 & L1) & S1 & S2 & (D2 & L2) & B1 & B2).
    split.
    + simpl nth_error. rewrite !int_digits by (auto; lia). simpl.
      now rewrite append_nil_r.
    + intros p e1 v1 v2 e2 q R'.
      destruct (le_lt_dec (length pre) (length p)) as [|Lt]; [assumption|].
      pose proof (bp_reading_matches _ _ _ _ _ _ _ R') as Mt'.
      apply match_here_complete in Mt' as (ps' & F).
      destruct R' as (E' & _).
      rewrite (Min p _ E' Lt) in F. discriminate F.
  - left. split; [reflexivity|].
    intros pre d1 w1 w2 d2 post R.
    pose proof (bp_reading_matches _ _ _ _ _ _ _ R) as Mt.
    apply match_here_complete in Mt as (ps' & F).
    destruct R as (E & _).
    rewrite (search_from_none _ _ _ _ S pre _ E) in F. discriminate F.
Qed.

Lemma find_bp_total (text : string) : exists r, _find_bp text = Ret r.
Proof.
  destruct (find_bp_spec text) as [[E _]|(pre & d1 & w1 & w2 & d2 & post & _ & E & _)];
    rewrite E; eauto.
Qed.


(** ** Blood-pressure extraction *)




Example find_bp_first_of_two :
  _find_bp "BP 92/58, later 120 / 80" = Ret (Some (92%Z, 58%Z, "92/58")).
Proof. vm_compute. reflexivity. Qed.

(** ** Risk Radar *)

Lemma find_bp_raw_occurs (text : string) (sys dia : Z) (raw : string) :
  _find_bp text = Ret (Some (sys, dia, raw)) -> occurs raw text.
Proof.
  destruct (find_bp_spec text)
    as [[E _]|(pre & d1 & w1 & w2 & d2 & post & R & E & _)];
    rewrite E; intros [= _ _ <-].
  destruct R as (-> & _). exists pre, post.
  rewrite !append_assoc. simpl. now rewrite !append_assoc.
Qed.

Lemma risks_of_total (note_text : string) :
  exists risks, risks_of note_text = Ret risks.
Proof.
  unfold risks_of. destruct (find_bp_total note_text) as (bp & ->).
  simpl; eauto.
Qed.

Lemma Forall_when {A : Type} (P : A -> Prop) (c : bool) (x : A) :
  P x -> Forall P (when c x).
Proof. destruct c; simpl; auto. Qed.

(** Every finding carries the evidence described by [evidence_ok]. *)
Lemma risks_of_evidence (note_text : string) (risks : list risk) :
  risks_of note_text = Ret risks -> Forall (evidence_ok note_text) risks.
Proof.
  unfold risks_of. destruct (_find_bp note_text) as [bp|e] eqn:F; cbn [bind];
    [|discriminate].
  intros [= <-].
  assert (K : forall r, In r keyword_findings -> evidence_ok note_text r)
    by (intros r Hr; now right).
  apply Forall_app; split.
  { destruct bp as [[[sys dia] raw]|]; [|constructor].
    apply Forall_when. left. exists raw. split; [reflexivity|].
    exact (find_bp_raw_occurs _ _ _ _ F). }
  unfold keyword_findings in K.
  repeat (apply Forall_app; split);
    apply Forall_when, K; auto 10 using in_eq, in_cons.
Qed.

Lemma evidence_ok_level (note_text : string) (r : risk) :
  evidence_ok note_text r ->
  exists tag, In (risk_level r, tag) level_tags
              /\ dict_get level_tags (risk_level r) = Ret tag.
Proof.
  intros [(raw & -> & _)|H].
  - exists "Monitor closely". simpl; auto.
  - simpl in H.
    destruct H as [<-|[<-|[<-|[<-|[<-|[]]]]]]; simpl; eauto 6.
Qed.

Lemma signal_lines_total (note_text : string) (risks : list risk) :
  Forall (evidence_ok note_text) risks ->
  exists ls, map_result signal_line risks = Ret ls /\ Forall2 shown_as risks ls.
Proof.
  induction 1 as [|r risks Hr _ (ls & E & F)]; simpl.
  - eauto.
  - destruct (evidence_ok_level _ _ Hr) as (tag & Hin & Hd).
    destruct r as [[title ev] level]. simpl in *.
    rewrite Hd. simpl. rewrite E. simpl.
    eexists; split; [reflexivity|].
    constructor; [|exact F]. now exists tag.
Qed.

Lemma existsb_level (risks : list risk) (lvl : string) :
  Forall (fun r => risk_level r = "monitor") risks -> lvl <> "monitor" ->
  existsb (fun r => String.eqb (risk_level r) lvl) risks = false.
Proof.
  intros All N. induction All as [|r rs Hr _ IH]; [reflexivity|].
  cbn [existsb]. rewrite Hr, IH.
  apply orb_false_iff; split; [|reflexivity].
  apply String.eqb_neq. congruence.
Qed.

(** C1, as stated, fails: the note "drank less" has one finding, of severity
    monitor, and its urgency is low, not moderate. *)
Lemma monitor_only_not_moderate :
  exists risks,
    risks_of "drank less" = Ret risks
    /\ risks <> []
    /\ Forall (fun r => risk_level r = "monitor") risks
    /\ urgency_of risks = "low"
    /\ urgency_of risks <> "moderate".
Proof.
  exists [("Low hydration risk", "Evidence: low water intake mentioned",
           "monitor")].
  split; [vm_compute; reflexivity|].
  split; [discriminate|].
  split; [repeat constructor|].
  split; [vm_compute; reflexivity | vm_compute; discriminate].
Qed.

(** A finding of a given severity is in the list, as the source tests it
    ([any(r[2] == lvl for r in risks)]). *)
Lemma existsb_level_iff (risks : list risk) (lvl : string) :
  existsb (fun r => String.eqb (risk_level r) lvl) risks = true
  <-> Exists (fun r => risk_level r = lvl) risks.
Proof.
  rewrite existsb_exists, Exists_exists.
  split; intros (r & I & H); exists r; (split; [exact I|]);
    now apply String.eqb_eq.
Qed.

(** The aggregation, one test after the other. *)
Lemma urgency_of_levels (risks : list risk) :
  urgency_of risks
  = if existsb (fun r => String.eqb (risk_level r) "consider_urgent") risks
    then "high"
    else if existsb (fun r => String.eqb (risk_level r) "monitor_closely") risks
         then "moderate"
         else "low".
Proof. destruct risks; reflexivity. Qed.

(** The second line of the report shows the urgency in capitals. *)
Lemma risk_radar_urgency_line (note_text : string) (risks : list risk) :
  risks_of note_text = Ret risks ->
  exists rest,
    risk_radar_lines note_text
    = Ret ("## 🚦 Risk Radar (Demo Mode)"
           :: ("**Urgency level:** **" ++ upper (urgency_of risks) ++ "**")
           :: rest).
Proof.
  intros E.
  destruct (signal_lines_total note_text risks (risks_of_evidence _ _ E))
    as (ls & M & _).
  unfold risk_radar_lines. rewrite E. cbn [bind].
  destruct risks as [|r rs]; [|rewrite M]; cbn [bind app];
    eexists; reflexivity.
Qed.

(** C1, amended: for every note, with [risks] its list of findings.  If the
    list is non-empty and holds only findings of severity monitor, the
    urgency level is low, not moderate, and the report reads LOW.  The level
    is moderate exactly when the list has a monitor_closely finding and no
    consider_urgent finding, and high exactly when it has a consider_urgent
    finding.  In every case the report shows the level in capitals on its
    second line. *)
Theorem monitor_only_is_low (note_text : string) (risks : list risk) :
  risks_of note_text = Ret risks ->
  (risks <> [] ->
   Forall (fun r => risk_level r = "monitor") risks ->
   urgency_of risks = "low"
   /\ urgency_of risks <> "moderate"
   /\ exists rest,
        risk_radar_lines note_text
        = Ret ("## 🚦 Risk Radar (Demo Mode)"
               :: "**Urgency level:** **LOW**" :: rest))
  /\ (urgency_of risks = "moderate"
      <-> Exists (fun r => risk_level r = "monitor_closely") risks
          /\ ~ Exists (fun r => risk_level r = "consider_urgent") risks)
  /\ (urgency_of risks = "high"
      <-> Exists (fun r => risk_level r = "consider_urgent") risks)
  /\ exists rest,
       risk_radar_lines note_text
       = Ret ("## 🚦 Risk Radar (Demo Mode)"
              :: ("**Urgency level:** **" ++ upper (urgency_of risks) ++ "**")
              :: rest).
Proof.
  intros E.
  pose proof (risk_radar_urgency_line _ _ E) as Line.
  split; [|split; [|split; [|exact Line]]].
  - intros NE All.
    assert (U : urgency_of risks = "low").
    { rewrite urgency_of_levels.
      rewrite !existsb_level by (assumption || discriminate). reflexivity. }
    split; [exact U|]. split; [rewrite U; discriminate|].
    rewrite U in Line. exact Line.
  - rewrite urgency_of_levels, <- !existsb_level_iff.
    destruct (existsb (fun r => String.eqb (risk_level r) "consider_urgent")
                risks);
      destruct (existsb (fun r => String.eqb (risk_level r) "monitor_closely")
                  risks);
      split; try (intros H; discriminate H).
    + intros [_ N]. now elim N.
    + intros [_ N]. now elim N.
    + intros _. split; [reflexivity | discriminate].
    + reflexivity.
    + intros [H _]. discriminate H.
  - rewrite urgency_of_levels, <- existsb_level_iff.
    destruct (existsb (fun r => String.eqb (risk_level r) "consider_urgent")
                risks);
      [split; reflexivity|].
    destruct (existsb (fun r => String.eqb (risk_level r) "monitor_closely")
                risks);
      split; intros H; discriminate H.
Qed.

Lemma monitor_only_is_low_witness :
  let risks := [("Low hydration risk", "Evidence: low water intake mentioned",
                 "monitor")] in
  (risks_of "drank less" = Ret risks
   /\ risks <> []
   /\ Forall (fun r => risk_level r = "monitor") risks)
  /\ urgency_of risks = "low"
  /\ urgency_of risks <> "moderate"
  /\ exists rest,
       risk_radar_lines "drank less"
       = Ret ("## 🚦 Risk Radar (Demo Mode)"
              :: "**Urgency level:** **LOW**" :: rest).
Proof.
  intros risks.
  assert (E : risks_of "drank less" = Ret risks) by (vm_compute; reflexivity).
  assert (NE : risks <> []) by discriminate.
  assert (All : Forall (fun r => risk_level r = "monitor") risks)
    by (repeat constructor).
  split; [auto|].
  exact (proj1 (monitor_only_is_low "drank less" risks E) NE All).
Defined.

(** C4: the note "lightheaded" raises the dizziness finding, and the report
    shows for it, in quotes, the evidence 'dizzy / standing': neither the
    quoted text nor the words dizzy and standing occur in the note.  The
    reading of the blood-pressure finding, by contrast, is quoted from the
    note ([find_bp_raw_occurs]). *)
Theorem lightheaded_evidence_not_in_note :
  exists r out,
    risks_of "lightheaded" = Ret [r]
    /\ risk_title r = "Dizziness on standing"
    /\ risk_evidence r = "Evidence: 'dizzy / standing' mentioned"
    /\ demo_risk_radar "lightheaded" = Ret out
    /\ occurs "Evidence: 'dizzy / standing' mentioned" out
    /\ ~ occurs (risk_evidence r) "lightheaded"
    /\ ~ occurs "dizzy / standing" "lightheaded"
    /\ ~ occurs "dizzy" "lightheaded"
    /\ ~ occurs "standing" "lightheaded".
Proof.
  exists ("Dizziness on standing", "Evidence: 'dizzy / standing' mentioned",
          "monitor_closely").
  eexists.
  split; [vm_compute; reflexivity|].
  split; [reflexivity|]. split; [reflexivity|].
  split; [vm_compute; reflexivity|].
  split; [apply contains_occurs; vm_compute; reflexivity|].
  repeat split; intros H; apply contains_occurs in H; vm_compute in H;
    discriminate H.
Qed.

(** What the signals of the report are made of, for every note: each one
    shows the title, the human-readable label and the evidence of a finding;
    the evidence quotes the note verbatim for the blood-pressure finding (the
    matched reading) and is a fixed phrase for every other finding. *)
Lemma risk_signals_evidence (note_text : string) :
  exists risks ls,
    risks_of note_text = Ret risks
    /\ Forall (evidence_ok note_text) risks
    /\ map_result signal_line risks = Ret ls
    /\ Forall2 shown_as risks ls
    /\ (risks <> [] ->
        exists rest,
          risk_radar_lines note_text
          = Ret (["## 🚦 Risk Radar (Demo Mode)";
                  "**Urgency level:** **" ++ upper (urgency_of risks) ++ "**";
                  EmptyString;
                  "### Signals detected (non-diagnostic)"]
                 +++ ls +++ rest)).
Proof.
  destruct (risks_of_total note_text) as (risks & E).
  pose proof (risks_of_evidence _ _ E) as Ev.
  destruct (signal_lines_total _ _ Ev) as (ls & M & Sh).
  exists risks, ls. repeat (split; [assumption|]).
  intros NE. unfold risk_radar_lines. rewrite E. cbn [bind].
  destruct risks as [|r rs]; [now elim NE|].
  rewrite M. cbn [bind]. eexists. reflexivity.
Qed.

Example risk_radar_bp_evidence :
  risks_of "BP was 88 / 60 today"
  = Ret [("Low blood pressure reading", "Evidence: '88 / 60'",
          "monitor_closely")].
Proof. vm_compute. reflexivity. Qed.

(** ** Doctor Brief *)

Lemma join_cons (sep x y : string) (ls : list string) :
  join sep (x :: y :: ls) = x ++ sep ++ join sep (y :: ls).
Proof. reflexivity. Qed.

Lemma occurs_join (sep l : string) (ls : list string) :
  In l ls -> occurs l (join sep ls).
Proof.
  induction ls as [|x ls IH]; intros H; [elim H|].
  destruct H as [->|H].
  - destruct ls as [|y ls].
    + exists EmptyString, EmptyString. cbn [join append].
      now rewrite append_nil_r.
    + rewrite join_cons. now exists EmptyString, (sep ++ join sep (y :: ls)).
  - destruct ls as [|y ls]; [elim H|]. rewrite join_cons.
    destruct (IH H) as (pre & post & ->).
    exists (x ++ sep ++ pre), post. now rewrite !append_assoc.
Qed.

(** The summary of the brief is the same template for every note. *)
Lemma doctor_brief_summary (note_text : string) :
  exists bp_line dizzy missed rest,
    doctor_brief_lines note_text
    = Ret ("## 🩺 Doctor Brief (Demo Mode)"
           :: "### Summary (4–6 sentences)"
           :: ("Caregiver reports increased fatigue today with reduced intake/activity. "
               ++ bp_line ++ ". " ++ dizzy ++ ". " ++ missed ++ ". "
               ++ "Hydration appears reduced. Mood described as lower/withdrawn.")
           :: rest).
Proof.
  unfold doctor_brief_lines. destruct (find_bp_total note_text) as (bp & ->).
  cbn [bind]. do 4 eexists. reflexivity.
Qed.

(** X21: for every note the brief reports fatigue, reduced hydration and a
    withdrawn mood, whatever the note says. *)
Lemma doctor_brief_always_asserts (note_text : string) :
  exists out,
    demo_doctor_brief note_text = Ret out
    /\ occurs "Caregiver reports increased fatigue today with reduced intake/activity." out
    /\ occurs "Hydration appears reduced. Mood described as lower/withdrawn." out.
Proof.
  destruct (doctor_brief_summary note_text)
    as (bp_line & dizzy & missed & rest & E).
  unfold demo_doctor_brief. rewrite E. cbn [bind].
  eexists. split; [reflexivity|].
  split; (eapply occurs_trans; [|apply occurs_join; right; right; left; reflexivity]).
  - exists EmptyString,
      (" " ++ bp_line ++ ". " ++ dizzy ++ ". " ++ missed ++ ". "
       ++ "Hydration appears reduced. Mood described as lower/withdrawn.").
    vm_compute. reflexivity.
  - exists
      ("Caregiver reports increased fatigue today with reduced intake/activity. "
       ++ bp_line ++ ". " ++ dizzy ++ ". " ++ missed ++ ". "),
      EmptyString.
    rewrite append_nil_r, !append_assoc. reflexivity.
Qed.

(** C2: on the empty note, which mentions nothing, the brief states that the
    caregiver reports increased fatigue, that hydration appears reduced and
    that the mood is withdrawn. *)
Theorem doctor_brief_empty_note_invents :
  contains "fatigue" (lower EmptyString) = false
  /\ contains "hydration" (lower EmptyString) = false
  /\ contains "mood" (lower EmptyString) = false
  /\ exists out,
       demo_doctor_brief EmptyString = Ret out
       /\ contains "Caregiver reports increased fatigue today" out = true
       /\ contains "Hydration appears reduced." out = true
       /\ contains "Mood described as lower/withdrawn." out = true.
Proof.
  repeat (split; [reflexivity|]).
  eexists. split; [vm_compute; reflexivity|].
  repeat split; vm_compute; reflexivity.
Qed.

(** ** Dispatch *)

Lemma llm_available_true (cfg : settings) (env : environment) :
  llm_available cfg env = true ->
  startswith (mode cfg) "Force Demo" = false
  /\ openai_loaded env = true
  /\ exists key, api_key env = Some key /\ key <> EmptyString.
Proof.
  unfold llm_available.
  destruct (startswith (mode cfg) "Force Demo"); [discriminate|].
  destruct (openai_loaded env); [|discriminate]. cbn [negb].
  destruct (api_key env) as [key|]; cbn [getenv]; [|discriminate].
  intros H. repeat split. exists key. split; [reflexivity|].
  intros ->. discriminate H.
Qed.

Lemma quota_error_text (e : string) : quota_error e = true <-> quota_text e.
Proof.
  unfold quota_error, quota_text, quota_markers. split.
  - intros H. apply orb_true_iff in H as [H|H];
      [apply orb_true_iff in H as [H|H]|];
      apply contains_occurs in H; eexists; (split; [|exact H]);
      auto using in_eq, in_cons.
  - intros (m & [<-|[<-|[<-|[]]]] & H); apply contains_occurs in H;
      rewrite H; rewrite ?orb_true_r; reflexivity.
Qed.

(** C5: when the model path is taken and the call fails, the heuristic
    generator is run, and its output returned, if and only if the text of
    the error (whatever its case) contains one of the quota or rate-limit
    markers; any other error is raised again, and the generator is not
    run. *)
Theorem fallback_iff_quota {A : Type} (cfg : settings) (env : environment)
  (llm : provider) (prompt : string) (demo_fn : A -> result string)
  (demo_args : A) (e : string) :
  llm_available cfg env = true ->
  llm (request_of cfg env prompt) = Raise e ->
  (quota_text e ->
   call_llm_or_demo cfg env llm prompt demo_fn demo_args
   = ([ModelCall (request_of cfg env prompt); DemoCall], demo_fn demo_args))
  /\ (~ quota_text e ->
      call_llm_or_demo cfg env llm prompt demo_fn demo_args
      = ([ModelCall (request_of cfg env prompt)], Raise e))
  /\ (In DemoCall (fst (call_llm_or_demo cfg env llm prompt demo_fn demo_args))
      <-> quota_text e).
Proof.
  intros Av Err. unfold call_llm_or_demo. rewrite Av, Err. cbn [negb].
  destruct (quota_error e) eqn:Q.
  - apply quota_error_text in Q. repeat split; auto.
    + now intros N.
    + intros _. cbn [fst]. right. left. reflexivity.
  - assert (N : ~ quota_text e).
    { intros H. apply quota_error_text in H. congruence. }
    repeat split; auto.
    + now intros H.
    + cbn [fst]. intros [H|[]]. discriminate H.
    + now intros H.
Qed.

Lemma fallback_iff_quota_witness :
  (llm_available auto_settings keyed_environment = true
   /\ rate_limited (request_of auto_settings keyed_environment "p")
      = Raise "Error code: 429 - Rate limit reached for requests")
  /\ (quota_text "Error code: 429 - Rate limit reached for requests" ->
      call_llm_or_demo auto_settings keyed_environment rate_limited "p"
        demo_risk_radar "drank less"
      = ([ModelCall (request_of auto_settings keyed_environment "p");
          DemoCall],
         demo_risk_radar "drank less"))
  /\ (~ quota_text "Error code: 429 - Rate limit reached for requests" ->
      call_llm_or_demo auto_settings keyed_environment rate_limited "p"
        demo_risk_radar "drank less"
      = ([ModelCall (request_of auto_settings keyed_environment "p")],
         Raise "Error code: 429 - Rate limit reached for requests"))
  /\ (In DemoCall
        (fst (call_llm_or_demo auto_settings keyed_environment rate_limited
                "p" demo_risk_radar "drank less"))
      <-> quota_text "Error code: 429 - Rate limit reached for requests").
Proof.
  split; [split; reflexivity|].
  apply (fallback_iff_quota auto_settings keyed_environment rate_limited "p"
           demo_risk_radar "drank less");
    reflexivity.
Defined.

Example other_errors_are_raised :
  call_llm_or_demo auto_settings keyed_environment
    (fun _ => Raise "Error code: 401 - Incorrect API key provided")
    "p" demo_risk_radar "drank less"
  = ([ModelCall (request_of auto_settings keyed_environment "p")],
     Raise "Error code: 401 - Incorrect API key provided").
Proof. vm_compute. reflexivity. Qed.

Lemma run_tab_unavailable (cfg : settings) (env : environment) (llm : provider)
  (k : kind) (i : inputs) :
  llm_available cfg env = false ->
  run_tab cfg env llm k i = ([DemoCall], heuristic_of k i).
Proof.
  intros Av. unfold run_tab, call_llm_or_demo. rewrite Av. cbn [negb].
  destruct k; reflexivity.
Qed.

(** C6: in forced Demo Mode, whatever the kind, the inputs, the library and
    the credential, the tab runs the heuristic generator of its kind on its
    inputs, and nothing else, and returns its output; and a model call is
    made only when Demo Mode is not forced, the provider library is loaded
    and the credential is present (set and not empty). *)
Theorem forced_demo_runs_heuristic (cfg : settings) (env : environment)
  (llm : provider) (k : kind) (i : inputs) :
  (startswith (mode cfg) "Force Demo" = true ->
   run_tab cfg env llm k i = ([DemoCall], heuristic_of k i))
  /\ (forall r,
        In (ModelCall r) (fst (run_tab cfg env llm k i)) ->
        startswith (mode cfg) "Force Demo" = false
        /\ openai_loaded env = true
        /\ exists key, api_key env = Some key /\ key <> EmptyString).
Proof.
  split.
  - intros F. apply run_tab_unavailable. unfold llm_available. now rewrite F.
  - intros r H. destruct (llm_available cfg env) eqn:Av.
    + now apply llm_available_true.
    + rewrite run_tab_unavailable in H by assumption.
      cbn [fst] in H. destruct H as [H|[]]. discriminate H.
Qed.

Lemma forced_demo_runs_heuristic_witness :
  startswith (mode forced_settings) "Force Demo" = true
  /\ run_tab forced_settings keyed_environment rate_limited DoctorBrief
       default_inputs
     = ([DemoCall], heuristic_of DoctorBrief default_inputs).
Proof.
  split; [reflexivity|].
  apply (proj1 (forced_demo_runs_heuristic forced_settings keyed_environment
                  rate_limited DoctorBrief default_inputs)).
  reflexivity.
Defined.

(** ** Care Circle message *)

Lemma length_when {A : Type} (c : bool) (x : A) : List.length (when c x) <= 1.
Proof. destruct c; simpl; lia. Qed.

(** The list [msg]: the header, at most three conditional bullets, the
    next-steps bullet and, for an urgent tone, the urgent line. *)
Lemma care_circle_msg_shape (note_text tone : string) :
  exists conds,
    care_circle_msg note_text tone
    = Ret ("Quick update:"
           :: conds +++ next_steps_line
           :: when (startswith (lower tone) "urgent") urgent_line)
    /\ List.length conds <= 3.
Proof.
  unfold care_circle_msg. destruct (find_bp_total note_text) as (bp & ->).
  cbn [bind].
  exists (when (contains "dizzy" (lower note_text))
            "- Had dizziness when standing today."
          +++ match bp with
              | Some (_, _, raw) => ["- BP reading reported: " ++ raw ++ "."]
              | None => []
              end
          +++ when (contains "missed" (lower note_text))
                "- Missed at least one medication dose (noted).").
  split.
  - cbn [app]. now rewrite <- !app_assoc.
  - rewrite !length_app.
    pose proof (length_when (contains "dizzy" (lower note_text))
                  "- Had dizziness when standing today.").
    pose proof (length_when (contains "missed" (lower note_text))
                  "- Missed at least one medication dose (noted).").
    destruct bp as [[[sys dia] raw]|]; cbn [List.length]; lia.
Qed.

(** C10: the list assembled before the cut has at most six entries, so
    keeping the first seven keeps them all: no bullet is dropped, and when
    the tone starts with "urgent", in any case, the urgent line is in the
    list and ends the message. *)
Theorem care_circle_cut_keeps_all (note_text audience tone : string) :
  exists msg,
    care_circle_msg note_text tone = Ret msg
    /\ List.length msg <= 6
    /\ firstn 7 msg = msg
    /\ care_circle_body note_text tone = Ret (join nl msg)
    /\ (startswith (lower tone) "urgent" = true ->
        In urgent_line msg
        /\ exists pre,
             demo_care_circle_msg note_text audience tone
             = Ret (pre ++ urgent_line)).
Proof.
  destruct (care_circle_msg_shape note_text tone) as (conds & E & Lc).
  eexists. split; [exact E|].
  assert (L : List.length
                ("Quick update:"
                 :: conds +++ next_steps_line
                 :: when (startswith (lower tone) "urgent") urgent_line) <= 6).
  { cbn [List.length]. rewrite length_app. cbn [List.length].
    pose proof (length_when (startswith (lower tone) "urgent") urgent_line).
    lia. }
  assert (F : forall l : list string, List.length l <= 6 -> firstn 7 l = l)
    by (intros l Hl; apply firstn_all2; lia).
  split; [exact L|]. split; [exact (F _ L)|].
  unfold demo_care_circle_msg, care_circle_body. rewrite E. cbn [bind].
  rewrite (F _ L). split; [reflexivity|].
  intros ->. cbn [when]. split.
  - right. apply in_or_app. right. right. left. reflexivity.
  - destruct (join_snoc nl ("Quick update:" :: conds +++ [next_steps_line])
                urgent_line) as (pre & J).
    cbn [app] in J. rewrite <- app_assoc in J. cbn [app] in J.
    rewrite J. rewrite !join_cons. cbn [join].
    exists ("## 👥 Care Circle Message (Demo Mode)" ++ nl
            ++ ("**Audience:** " ++ audience ++ " | **Tone:** " ++ tone) ++ nl
            ++ EmptyString ++ nl ++ pre).
    now rewrite !append_assoc.
Qed.

Example care_circle_default :
  care_circle_msg default_note "Urgent (only if needed)"
  = Ret ["Quick update:";
         "- Had dizziness when standing today.";
         "- BP reading reported: 92/58.";
         "- Missed at least one medication dose (noted).";
         next_steps_line;
         urgent_line].
Proof. vm_compute. reflexivity. Qed.

Lemma length_split_lines (s : string) :
  List.length (split_lines s) = S (count_nl s).
Proof.
  induction s as [|c s IH]; cbn [split_lines count_nl]; [reflexivity|].
  destruct (Ascii.eqb c (ascii_of_nat 10)); cbn [List.length]; [now rewrite IH|].
  destruct (split_lines s) as [|l ls]; [discriminate IH | exact IH].
Qed.

Lemma count_nl_append (a b : string) :
  count_nl (a ++ b) = count_nl a + count_nl b.
Proof.
  induction a as [|c a IH]; cbn [append count_nl]; [reflexivity|].
  rewrite IH. lia.
Qed.

Lemma count_nls_app (xs ys : list string) :
  count_nls (xs +++ ys) = count_nls xs + count_nls ys.
Proof.
  induction xs as [|x xs IH]; cbn [app count_nls fold_right]; [reflexivity|].
  fold (count_nls (xs +++ ys)) (count_nls xs). rewrite IH. lia.
Qed.

Lemma count_nls_when (c : bool) (x : string) :
  count_nl x = 0 -> count_nls (when c x) = 0.
Proof. intros H. destruct c; cbn [when count_nls fold_right]; lia. Qed.

Lemma count_nl_join (xs : list string) :
  count_nl (join nl xs) + 1 = count_nls xs + List.length xs \/ xs = [].
Proof.
  induction xs as [|x xs IH]; [now right|]. left.
  destruct xs as [|y xs].
  - cbn [join count_nls fold_right List.length]. lia.
  - rewrite join_cons, !count_nl_append.
    destruct IH as [IH|IH]; [|discriminate IH].
    change (count_nl nl) with 1.
    change (count_nls (x :: y :: xs)) with (count_nl x + count_nls (y :: xs)).
    cbn [List.length] in *. lia.
Qed.

(** X20: the body has one line per entry of [msg], and one more for each
    line feed inside the reading quoted in the blood-pressure bullet. *)
Lemma care_circle_body_lines (note_text tone : string)
  (bp : option (Z * Z * string)) :
  _find_bp note_text = Ret bp ->
  exists msg body,
    care_circle_msg note_text tone = Ret msg
    /\ care_circle_body note_text tone = Ret body
    /\ List.length (split_lines body)
       = List.length msg
         + match bp with
           | Some (_, _, raw) => count_nl raw
           | None => 0
           end.
Proof.
  intros F. unfold care_circle_body, care_circle_msg. rewrite F. cbn [bind].
  do 2 eexists. split; [reflexivity|]. split; [reflexivity|].
  rewrite firstn_all2.
  2:{ cbn [List.length app]. rewrite !length_app.
      pose proof (length_when (contains "dizzy" (lower note_text))
                    "- Had dizziness when standing today.").
      pose proof (length_when (contains "missed" (lower note_text))
                    "- Missed at least one medication dose (noted).").
      pose proof (length_when (startswith (lower tone) "urgent") urgent_line).
      destruct bp as [[[sys dia] raw]|]; cbn [List.length]; lia. }
  rewrite length_split_lines.
  match goal with
  | |- S (count_nl (join nl ?m)) = _ =>
      destruct (count_nl_join m) as [J|J]; [|discriminate J];
        assert (C : count_nls m
                    = match bp with
                      | Some (_, _, raw) => count_nl raw
                      | None => 0
                      end); [|lia]
  end.
  rewrite !count_nls_app, !count_nls_when by reflexivity.
  destruct bp as [[[sys dia] raw]|]; cbn [count_nls fold_right];
    [|reflexivity].
  rewrite !count_nl_append.
  change (count_nl "Quick update:") with 0.
  change (count_nl "- BP reading reported: ") with 0.
  change (count_nl ".") with 0.
  change (count_nl next_steps_line) with 0.
  lia.
Qed.

(** C8: for every note, audience and tone, the body of the message is made
    of at most seven lines, the entries kept by the cut [msg[:7]], joined by
    line feeds and placed after the two header lines and an empty line.
    Each entry is the "Quick update:" header or one of the five bullets:
    dizziness, the reading found, missed dose, next steps, urgent contact. *)
Theorem care_circle_body_at_most_seven (note_text audience tone : string) :
  exists msg entries,
    care_circle_msg note_text tone = Ret msg
    /\ entries = firstn 7 msg
    /\ List.length entries <= 7
    /\ care_circle_body note_text tone = Ret (join nl entries)
    /\ demo_care_circle_msg note_text audience tone
       = Ret (join nl
                ["## 👥 Care Circle Message (Demo Mode)";
                 "**Audience:** " ++ audience ++ " | **Tone:** " ++ tone;
                 EmptyString;
                 join nl entries])
    /\ forall l, In l entries ->
         l = "Quick update:"
         \/ l = "- Had dizziness when standing today."
         \/ (exists sys dia raw,
                _find_bp note_text = Ret (Some (sys, dia, raw))
                /\ l = "- BP reading reported: " ++ raw ++ ".")
         \/ l = "- Missed at least one medication dose (noted)."
         \/ l = next_steps_line
         \/ l = urgent_line.
Proof.
  unfold demo_care_circle_msg, care_circle_body, care_circle_msg.
  destruct (find_bp_total note_text) as (bp & F). rewrite F. cbn [bind].
  do 2 eexists. split; [reflexivity|]. split; [reflexivity|].
  split; [apply firstn_le_length|].
  split; [reflexivity|]. split; [reflexivity|].
  intros l H.
  match type of H with
  | In l (firstn 7 ?m) =>
      assert (I : In l m)
        by (rewrite <- (firstn_skipn 7 m); apply in_or_app; now left)
  end.
  clear H. revert I.
  generalize (contains "dizzy" (lower note_text)),
             (contains "missed" (lower note_text)),
             (startswith (lower tone) "urgent").
  intros b1 b3 b4 I.
  assert (B : forall raw, In l ["- BP reading reported: " ++ raw ++ "."] ->
                          l = "- BP reading reported: " ++ raw ++ ".")
    by (intros raw [<-|[]]; reflexivity).
  cbn [app In] in I. destruct I as [<-|I]; [now left|].
  apply in_app_or in I as [I|I].
  { destruct b1; [|elim I]. destruct I as [<-|[]]. right; now left. }
  apply in_app_or in I as [I|I].
  { destruct bp as [[[sys dia] raw]|]; [|elim I].
    apply B in I. do 2 right. left. now exists sys, dia, raw. }
  apply in_app_or in I as [I|I].
  { destruct b3; [|elim I]. destruct I as [<-|[]]. do 3 right; now left. }
  destruct I as [<-|I]; [do 4 right; now left|].
  destruct b4; [|elim I]. destruct I as [<-|[]]. now do 5 right.
Qed.

(** A bullet can run over several lines of text: the reading is quoted as
    it stands in the note, and the white space around its slash may hold
    line feeds.  Here the six entries of the body make eight lines of
    text. *)
Example care_circle_body_eight_lines :
  exists body,
    care_circle_body
      ("He was dizzy and missed his pill. BP 120" ++ nl ++ "/" ++ nl ++ "80")
      "Urgent (only if needed)"
    = Ret body
    /\ split_lines body
       = ["Quick update:";
          "- Had dizziness when standing today.";
          "- BP reading reported: 120";
          "/";
          "80.";
          "- Missed at least one medication dose (noted).";
          next_steps_line;
          urgent_line]
    /\ List.length (split_lines body) = 8.
Proof.
  eexists. split; [vm_compute; reflexivity|].
  split; vm_compute; reflexivity.
Qed.

(** ** Caregiver Wellbeing *)

Lemma leb_ne_ltb (a b : string) : String.leb a b = true -> a <> b -> str_lt a b.
Proof.
  unfold str_lt, String.leb, String.ltb.
  destruct (String.compare a b) eqn:C; intros L N;
    [|reflexivity | discriminate L].
  apply String.compare_eq_iff in C. now elim N.
Qed.

Lemma leb_false_ltb (a b : string) : String.leb a b = false -> str_lt b a.
Proof.
  unfold str_lt, String.leb, String.ltb. rewrite (String.compare_antisym a b).
  destruct (String.compare b a); cbn [CompOpp]; intros L;
    (reflexivity || discriminate L).
Qed.

Lemma insert_sorted_In (x y : string) (l : list string) :
  In y (insert_sorted x l) <-> y = x \/ In y l.
Proof.
  induction l as [|z l IH]; cbn [insert_sorted].
  - cbn [In]. intuition.
  - destruct (String.leb x z); cbn [In]; [intuition|].
    rewrite IH. intuition.
Qed.

Lemma sorted_In (y : string) (l : list string) : In y (sorted l) <-> In y l.
Proof.
  induction l as [|x l IH]; cbn [sorted fold_right]; [reflexivity|].
  fold (sorted l). rewrite insert_sorted_In, IH. cbn [In]. intuition.
Qed.

Lemma insert_sorted_strict (x : string) (l : list string) :
  Sorted str_lt l -> ~ In x l -> Sorted str_lt (insert_sorted x l).
Proof.
  induction 1 as [|z l S IH Hd]; intros N; cbn [insert_sorted].
  - repeat constructor.
  - destruct (String.leb x z) eqn:L.
    + constructor; [now constructor|]. constructor.
      apply leb_ne_ltb; [exact L|]. intros ->. apply N. now left.
    + constructor; [apply IH; intros H; apply N; now right|].
      destruct l as [|w l]; cbn [insert_sorted].
      * constructor. now apply leb_false_ltb.
      * destruct (String.leb x w); constructor;
          [now apply leb_false_ltb | now inversion Hd].
Qed.

Lemma sorted_strict (l : list string) : NoDup l -> Sorted str_lt (sorted l).
Proof.
  induction 1 as [|x l N _ IH]; cbn [sorted fold_right]; [constructor|].
  fold (sorted l). apply insert_sorted_strict; [exact IH|].
  now rewrite sorted_In.
Qed.

Lemma insert_sorted_NoDup (x : string) (l : list string) :
  NoDup l -> ~ In x l -> NoDup (insert_sorted x l).
Proof.
  induction 1 as [|z l Nz Nl IH]; intros N; cbn [insert_sorted].
  - repeat constructor. intros [].
  - destruct (String.leb x z).
    + constructor; [exact N | constructor; assumption].
    + constructor.
      * rewrite insert_sorted_In. intros [->|H]; [apply N; now left | auto].
      * apply IH. intros H; apply N; now right.
Qed.

Lemma sorted_NoDup (l : list string) : NoDup l -> NoDup (sorted l).
Proof.
  induction 1 as [|x l N _ IH]; cbn [sorted fold_right]; [constructor|].
  fold (sorted l). apply insert_sorted_NoDup; [exact IH|].
  now rewrite sorted_In.
Qed.

Lemma strain_cues_In (text p : string) :
  In p (strain_cues text) <-> In p strain_phrases /\ occurs p (lower text).
Proof.
  unfold strain_cues, set_of, _contains_any.
  rewrite sorted_In, nodup_In, filter_In, lower_idem, contains_occurs.
  reflexivity.
Qed.

(** C9: the strain cues listed are the strain phrases that occur in the
    text once lowered, each once, in increasing order; "tired tired
    stressed" gives stress, tired; and the line of the report lists the cues,
    or says that none was detected when there is none. *)
Theorem strain_cues_sorted_set (text : string) :
  Sorted str_lt (strain_cues text)
  /\ NoDup (strain_cues text)
  /\ (forall p,
        In p (strain_cues text)
        <-> In p strain_phrases /\ occurs p (lower text))
  /\ strain_cues "tired tired stressed" = ["stress"; "tired"]
  /\ wellbeing_signal_line text
     = match strain_cues text with
       | [] => "- No explicit caregiver strain language detected in the note."
       | cues => "- Possible strain cues: " ++ join ", " cues
       end
  /\ In (wellbeing_signal_line text) (caregiver_wellbeing_lines text).
Proof.
  assert (N : NoDup (set_of (_contains_any (lower text) strain_phrases)))
    by apply NoDup_nodup.
  split; [exact (sorted_strict _ N)|].
  split; [exact (sorted_NoDup _ N)|].
  split; [intros p; apply strain_cues_In|].
  split; [vm_compute; reflexivity|].
  split; [|right; right; left; reflexivity].
  unfold wellbeing_signal_line.
  destruct (_contains_any (lower text) strain_phrases) as [|x l] eqn:C.
  - unfold strain_cues. now rewrite C.
  - destruct (strain_cues text) as [|y cues] eqn:S; [|reflexivity].
    assert (H : In x (strain_cues text)).
    { unfold strain_cues. rewrite C. apply sorted_In, nodup_In. now left. }
    rewrite S in H. elim H.
Qed.

Example wellbeing_tired_stressed :
  wellbeing_signal_line "tired tired stressed"
  = "- Possible strain cues: stress, tired".
Proof. vm_compute. reflexivity. Qed.

(** ** Totality *)

Lemma find_temp_total (text : string) : exists r, _find_temp text = Ret r.
Proof.
  unfold _find_temp. destruct (search temp_re (lower text)) as [[pos ps]|];
    eauto.
Qed.

Lemma demo_risk_radar_total (note_text : string) :
  exists out, demo_risk_radar note_text = Ret out.
Proof.
  destruct (risks_of_total note_text) as (risks & E).
  destruct (signal_lines_total _ _ (risks_of_evidence _ _ E)) as (ls & M & _).
  unfold demo_risk_radar, risk_radar_lines. rewrite E. cbn [bind].
  destruct risks as [|r rs]; [|rewrite M]; cbn [bind]; eauto.
Qed.

Lemma demo_action_planner_total (note_text : string) :
  exists out, demo_action_planner note_text = Ret out.
Proof.
  unfold demo_action_planner, action_planner_lines.
  destruct (find_bp_total note_text) as (bp & ->). cbn [bind]. eauto.
Qed.

Lemma demo_doctor_brief_total (note_text : string) :
  exists out, demo_doctor_brief note_text = Ret out.
Proof.
  unfold demo_doctor_brief, doctor_brief_lines.
  destruct (find_bp_total note_text) as (bp & ->). cbn [bind]. eauto.
Qed.

Lemma demo_care_circle_msg_total (note_text audience tone : string) :
  exists out, demo_care_circle_msg note_text audience tone = Ret out.
Proof.
  unfold demo_care_circle_msg, care_circle_body, care_circle_msg.
  destruct (find_bp_total note_text) as (bp & ->). cbn [bind]. eauto.
Qed.

(** C7, as stated, fails: on the empty note the "Pertinent positives"
    section of the Doctor Brief is in the report and has no line, no fallback
    bullet either. *)
Lemma doctor_brief_positives_left_empty :
  exists lines,
    doctor_brief_lines EmptyString = Ret lines
    /\ In "### Pertinent positives" lines
    /\ bucket "### Pertinent positives" lines = [].
Proof.
  eexists. split; [vm_compute; reflexivity|].
  split; [do 4 right; left; reflexivity | vm_compute; reflexivity].
Qed.

(** C7, amended: the two extractors and the five generators never raise,
    whatever the text; on the empty note each generator returns a text that
    is not empty, in which the Risk Radar says that no signal was detected,
    the three buckets of the Action Planner that depend on the note hold
    their generic bullet, the summary of the Doctor Brief says that the blood
    pressure was not provided and that dizziness and a missed dose were not
    reported, the message of the Care Circle holds its header and its
    next-steps bullet, and the Wellbeing report says that no strain language
    was detected; the "Pertinent positives" section of the Doctor Brief is
    left empty. *)
Theorem generators_total :
  (forall text, exists r, _find_bp text = Ret r)
  /\ (forall text, exists r, _find_temp text = Ret r)
  /\ (forall n, exists out, demo_risk_radar n = Ret out)
  /\ (forall n, exists out, demo_action_planner n = Ret out)
  /\ (forall n, exists out, demo_doctor_brief n = Ret out)
  /\ (forall n a t, exists out, demo_care_circle_msg n a t = Ret out)
  /\ (forall n, exists out, demo_caregiver_wellbeing n = Ret out)
  /\ (exists ls out,
        risk_radar_lines EmptyString = Ret ls
        /\ In "- No clear risk signals detected from the note." ls
        /\ demo_risk_radar EmptyString = Ret out /\ out <> EmptyString)
  /\ (exists ls out,
        action_planner_lines EmptyString = Ret ls
        /\ bucket "### Do now" ls
           = ["- Ensure comfort and safety; address immediate needs."]
        /\ bucket "### Monitor" ls
           = ["- Track symptoms + timing through the day."]
        /\ bucket "### Confirm" ls
           = ["- Confirm meds taken/missed and any measurements taken."]
        /\ demo_action_planner EmptyString = Ret out /\ out <> EmptyString)
  /\ (exists ls out,
        doctor_brief_lines EmptyString = Ret ls
        /\ In ("Caregiver reports increased fatigue today with reduced intake/activity. "
               ++ "BP: not provided. Dizziness: not reported. "
               ++ "Missed medication dose: not reported. "
               ++ "Hydration appears reduced. Mood described as lower/withdrawn.")
             ls
        /\ bucket "### Pertinent positives" ls = []
        /\ demo_doctor_brief EmptyString = Ret out /\ out <> EmptyString)
  /\ (forall a t, exists out,
        care_circle_msg EmptyString t
        = Ret ("Quick update:" :: next_steps_line
               :: when (startswith (lower t) "urgent") urgent_line)
        /\ demo_care_circle_msg EmptyString a t = Ret out
        /\ out <> EmptyString)
  /\ (exists out,
        bucket "### Signals (only if present)"
          (caregiver_wellbeing_lines EmptyString)
        = ["- No explicit caregiver strain language detected in the note."]
        /\ demo_caregiver_wellbeing EmptyString = Ret out
        /\ out <> EmptyString).
Proof.
  split; [exact find_bp_total|]. split; [exact find_temp_total|].
  split; [exact demo_risk_radar_total|].
  split; [exact demo_action_planner_total|].
  split; [exact demo_doctor_brief_total|].
  split; [exact demo_care_circle_msg_total|].
  split; [intros n; unfold demo_caregiver_wellbeing; eauto|].
  split.
  { do 2 eexists. split; [vm_compute; reflexivity|].
    split; [do 3 right; left; reflexivity|].
    split; [vm_compute; reflexivity | discriminate]. }
  split.
  { do 2 eexists. split; [vm_compute; reflexivity|].
    repeat (split; [vm_compute; reflexivity|]). discriminate. }
  split.
  { do 2 eexists. split; [vm_compute; reflexivity|].
    split; [do 2 right; left; vm_compute; reflexivity|].
    repeat (split; [vm_compute; reflexivity|]). discriminate. }
  split.
  { intros a t. eexists. split; [reflexivity|].
    split; [reflexivity | discriminate]. }
  eexists. split; [vm_compute; reflexivity|].
  split; [vm_compute; reflexivity | discriminate].
Qed.


(** * Further properties *)

(** ** Blood-pressure extraction *)

Lemma digit_value_bounds (c : ascii) :
  is_digit c = true -> (0 <= Z.of_nat (code c - 48) <= 9)%Z.
Proof.
  unfold is_digit, between. intros H.
  apply andb_true_iff in H as [L U].
  apply Nat.leb_le in L. apply Nat.leb_le in U. lia.
Qed.

Lemma digits_value_bounds (d : string) :
  digits23 d -> (0 <= digits_value 0 d <= 999)%Z.
Proof.
  intros [A L].
  destruct d as [|a [|b [|c [|e d]]]]; cbn [length] in L; try lia;
    cbn [all_chars] in A; cbn [digits_value];
    repeat (apply andb_true_iff in A as [?%digit_value_bounds A]); lia.
Qed.



(** X2: what extraction returns is a piece of the note, its two numbers lie
    between 0 and 999, and extraction applied to the returned text alone
    gives the same result again. *)
Theorem find_bp_result (text : string) (sys dia : Z) (raw : string) :
  _find_bp text = Ret (Some (sys, dia, raw)) ->
  occurs raw text
  /\ (0 <= sys <= 999)%Z /\ (0 <= dia <= 999)%Z
  /\ _find_bp raw = Ret (Some (sys, dia, raw)).
Proof.
  intros F. split; [exact (find_bp_raw_occurs _ _ _ _ F)|].
  destruct (find_bp_spec text)
    as [[E _]|(pre & d1 & w1 & w2 & d2 & post & R & E & _)];
    rewrite E in F; [discriminate F|].
  injection F as <- <- <-.
  destruct R as (_ & D1 & S1 & S2 & D2 & _ & _).
  split; [now apply digits_value_bounds|].
  split; [now apply digits_value_bounds|].
  assert (R0 : bp_reading (d1 ++ w1 ++ "/" ++ w2 ++ d2) EmptyString
                 d1 w1 w2 d2 EmptyString).
  { unfold bp_reading. cbn [append last_char head is_word_at].
    rewrite append_nil_r. auto 10. }
  destruct (find_bp_spec (d1 ++ w1 ++ "/" ++ w2 ++ d2))
    as [[_ N]|(pre' & e1 & v1 & v2 & e2 & q & R' & E' & Min)].
  - elim (N _ _ _ _ _ _ R0).
  - pose proof (Min _ _ _ _ _ _ R0) as L. cbn [length] in L.
    assert (L0 : length pre' = length EmptyString) by (cbn [length]; lia).
    destruct (bp_reading_unique _ _ _ _ _ _ _ _ _ _ _ _ _ R' R0 L0)
      as (_ & -> & -> & -> & -> & _).
    exact E'.
Qed.

Lemma find_bp_result_witness :
  _find_bp "BP at 11 AM was 92 / 58." = Ret (Some (92%Z, 58%Z, "92 / 58"))
  /\ occurs "92 / 58" "BP at 11 AM was 92 / 58."
  /\ (0 <= 92 <= 999)%Z /\ (0 <= 58 <= 999)%Z
  /\ _find_bp "92 / 58" = Ret (Some (92%Z, 58%Z, "92 / 58")).
Proof.
  assert (F : _find_bp "BP at 11 AM was 92 / 58."
              = Ret (Some (92%Z, 58%Z, "92 / 58")))
    by (vm_compute; reflexivity).
  split; [exact F|].
  exact (find_bp_result _ _ _ _ F).
Defined.

(** ** Risk Radar: the rule table *)

Lemma In_when {A : Type} (c : bool) (x y : A) :
  In y (when c x) <-> c = true /\ y = x.
Proof.
  destruct c; cbn [when In]; split.
  - intros [<-|[]]. auto.
  - intros [_ ->]. now left.
  - intros [].
  - intros [H _]. discriminate H.
Qed.

(** X3: the blood-pressure finding is raised exactly when the reading found
    has a first number of at most 90 or a second number of at most 60. *)
Theorem low_bp_finding_iff (note_text : string) (sys dia : Z) (raw : string)
  (risks : list risk) :
  _find_bp note_text = Ret (Some (sys, dia, raw)) ->
  risks_of note_text = Ret risks ->
  (In (low_bp_finding raw) risks <-> (sys <= 90 \/ dia <= 60)%Z).
Proof.
  intros F E. unfold risks_of in E. rewrite F in E. cbn [bind] in E.
  injection E as <-. unfold low_bp_finding.
  rewrite in_app_iff, In_when, orb_true_iff, !Z.leb_le.
  split.
  - intros [[H _]|H]; [exact H|exfalso].
    repeat (apply in_app_or in H as [H|H]);
      apply In_when in H as [_ H]; discriminate H.
  - intros H. left. auto.
Qed.

Lemma low_bp_finding_iff_witness :
  (_find_bp "BP 120/60" = Ret (Some (120%Z, 60%Z, "120/60"))
   /\ risks_of "BP 120/60" = Ret [low_bp_finding "120/60"])
  /\ (In (low_bp_finding "120/60") [low_bp_finding "120/60"]
      <-> (120 <= 90 \/ 60 <= 60)%Z).
Proof.
  assert (F : _find_bp "BP 120/60" = Ret (Some (120%Z, 60%Z, "120/60")))
    by (vm_compute; reflexivity).
  assert (E : risks_of "BP 120/60" = Ret [low_bp_finding "120/60"])
    by (vm_compute; reflexivity).
  split; [auto|].
  exact (low_bp_finding_iff _ _ _ _ _ F E).
Defined.

Example normal_reading_not_flagged : risks_of "BP 91/61" = Ret [].
Proof. vm_compute. reflexivity. Qed.

(** The urgency of the findings of a note, from the tests that raise them. *)
Lemma urgency_of_risks (note_text : string) (risks : list risk) :
  risks_of note_text = Ret risks ->
  exists low_bp : bool,
    (low_bp = true
     <-> exists sys dia raw,
           _find_bp note_text = Ret (Some (sys, dia, raw))
           /\ (sys <= 90 \/ dia <= 60)%Z)
    /\ urgency_of risks
       = if has_any urgent_keywords (lower note_text) then "high"
         else if low_bp || has_any closely_keywords (lower note_text)
              then "moderate"
              else "low".
Proof.
  intros E. unfold risks_of in E.
  destruct (_find_bp note_text) as [bp|e] eqn:F; cbn [bind] in E;
    [|discriminate E].
  injection E as <-.
  exists (match bp with
          | Some (sys, dia, _) => (sys <=? 90)%Z || (dia <=? 60)%Z
          | None => false
          end).
  split.
  - destruct bp as [[[sys dia] raw]|].
    + rewrite orb_true_iff, !Z.leb_le. split.
      * intros H. now exists sys, dia, raw.
      * intros (s & d & r & [= -> -> ->] & H). exact H.
    + split; [discriminate|]. intros (s & d & r & H & _). discriminate H.
  - set (t := lower note_text).
    assert (HU : has_any urgent_keywords t
                 = (contains "short of breath" t
                    || contains "difficulty breathing" t)
                   || (contains "chest pain" t || contains "fainted" t
                       || contains "passed out" t)).
    { unfold has_any, urgent_keywords. cbn [existsb].
      now rewrite orb_false_r, !orb_assoc. }
    assert (HC : has_any closely_keywords t
                 = (contains "dizzy" t || contains "dizziness" t
                    || contains "lightheaded" t)
                   || (contains "fell" t || contains "trip" t
                       || contains "walker" t)).
    { unfold has_any, closely_keywords. cbn [existsb].
      now rewrite orb_false_r, !orb_assoc. }
    rewrite HU, HC.
    generalize (contains "dizzy" t || contains "dizziness" t
                || contains "lightheaded" t),
               (contains "short of breath" t
                || contains "difficulty breathing" t),
               (contains "chest pain" t || contains "fainted" t
                || contains "passed out" t),
               (contains "fell" t || contains "trip" t || contains "walker" t),
               (contains "very little water" t || contains "drank less" t
                || contains "dehydr" t).
    intros b2 b3 b4 b5 b6.
    destruct bp as [[[sys dia] raw]|];
      [destruct ((sys <=? 90)%Z || (dia <=? 60)%Z)|];
      destruct b2, b3, b4, b5, b6; reflexivity.
Qed.



Lemma signal_line_not_advice (r : risk) (l : string) :
  shown_as r l ->
  l <> "- Consider urgent medical care / call clinician, especially if symptoms worsen."
  /\ l <> "- No clear risk signals detected from the note.".
Proof.
  intros (tag & _ & ->). split; intros H; cbn [append] in H; discriminate H.
Qed.

(** X5: in the Risk Radar report the advice to consider urgent care is
    given exactly when the urgency is high, and the line saying that no
    signal was detected exactly when the note raises no finding. *)
Theorem risk_radar_advice (note_text : string) (risks : list risk) :
  risks_of note_text = Ret risks ->
  exists ls,
    risk_radar_lines note_text = Ret ls
    /\ (In "- Consider urgent medical care / call clinician, especially if symptoms worsen." ls
        <-> urgency_of risks = "high")
    /\ (In "- No clear risk signals detected from the note." ls
        <-> risks = []).
Proof.
  intros E.
  destruct (signal_lines_total _ _ (risks_of_evidence _ _ E)) as (sl & M & Sh).
  assert (U : urgency_of risks = "high" \/ urgency_of risks = "moderate"
              \/ urgency_of risks = "low").
  { destruct (urgency_of_risks _ _ E) as (lb & _ & ->).
    destruct (has_any urgent_keywords (lower note_text)); [now left|].
    destruct (lb || has_any closely_keywords (lower note_text));
      [right; now left | right; now right]. }
  assert (NS : forall l, In l sl ->
                 l <> "- Consider urgent medical care / call clinician, especially if symptoms worsen."
                 /\ l <> "- No clear risk signals detected from the note.").
  { clear M E U. induction Sh as [|r l rs sl' Hrl _ IH]; intros l0 H; [elim H|].
    destruct H as [<-|H];
      [exact (signal_line_not_advice _ _ Hrl) | exact (IH l0 H)]. }
  unfold risk_radar_lines. rewrite E. cbn [bind].
  destruct risks as [|r rs].
  - cbn [bind urgency_of]. eexists. split; [reflexivity|].
    split; split; try reflexivity.
    + cbn [app In String.eqb]. intros H.
      repeat (destruct H as [H|H]; [discriminate H|]). elim H.
    + intros H; discriminate H.
    + intros _. cbn [app In]. auto 10.
  - rewrite M. cbn [bind]. eexists. split; [reflexivity|].
    split; split.
    + intros H. destruct U as [U|[U|U]]; [exact U| |]; rewrite U in H;
        cbn [app In String.eqb] in H; exfalso;
        repeat (destruct H as [H|H]; [discriminate H|]);
        apply in_app_or in H as [H|H];
        try (apply NS in H; tauto);
        repeat (destruct H as [H|H]; [discriminate H|]); elim H.
    + intros ->. rewrite String.eqb_refl. cbn [app]. do 4 right.
      apply in_or_app. right. cbn [In]. auto.
    + intros H. exfalso. cbn [app In] in H.
      repeat (destruct H as [H|H]; [discriminate H|]).
      apply in_app_or in H as [H|H]; [apply NS in H; tauto|].
      destruct U as [U|[U|U]]; rewrite U in H; cbn [String.eqb In] in H;
        repeat (destruct H as [H|H]; [discriminate H|]); elim H.
    + intros H; discriminate H.
Qed.

(** X6: the findings of a note are listed in the order of the rule table,
    each at most once, so there are at most six. *)
Theorem findings_in_table_order (note_text : string) (risks : list risk) :
  risks_of note_text = Ret risks ->
  map risk_title risks
  = filter (fun t => existsb (String.eqb t) (map risk_title risks)) rule_titles
  /\ NoDup (map risk_title risks)
  /\ List.length risks <= 6.
Proof.
  intros E.
  assert (T : map risk_title risks
              = filter (fun t => existsb (String.eqb t) (map risk_title risks))
                  rule_titles).
  { unfold risks_of in E.
    destruct (_find_bp note_text) as [bp|e]; cbn [bind] in E;
      [|discriminate E].
    injection E as <-.
    set (t := lower note_text).
    generalize (contains "dizzy" t || contains "dizziness" t
                || contains "lightheaded" t),
               (contains "short of breath" t
                || contains "difficulty breathing" t),
               (contains "chest pain" t || contains "fainted" t
                || contains "passed out" t),
               (contains "fell" t || contains "trip" t || contains "walker" t),
               (contains "very little water" t || contains "drank less" t
                || contains "dehydr" t).
    intros b2 b3 b4 b5 b6.
    destruct bp as [[[sys dia] raw]|];
      [destruct ((sys <=? 90)%Z || (dia <=? 60)%Z)|];
      destruct b2, b3, b4, b5, b6; reflexivity. }
  split; [exact T|].
  assert (N : NoDup rule_titles).
  { unfold rule_titles.
    repeat (constructor;
            [cbn [In]; intros H;
             repeat (destruct H as [H|H]; [discriminate H|]); elim H|]).
    constructor. }
  split.
  - rewrite T. now apply NoDup_filter.
  - rewrite <- (length_map risk_title), T.
    etransitivity; [apply filter_length_le | reflexivity].
Qed.

Lemma findings_in_table_order_witness :
  risks_of "walker, then short of breath; BP 85/55"
  = Ret [low_bp_finding "85/55";
         ("Breathing difficulty", "Evidence: 'short of breath' mentioned",
          "consider_urgent");
         ("Fall risk", "Evidence: fall/trip/walker mentioned",
          "monitor_closely")]
  /\ NoDup ["Low blood pressure reading"; "Breathing difficulty"; "Fall risk"].
Proof.
  assert (E : risks_of "walker, then short of breath; BP 85/55"
              = Ret [low_bp_finding "85/55";
                     ("Breathing difficulty",
                      "Evidence: 'short of breath' mentioned",
                      "consider_urgent");
                     ("Fall risk", "Evidence: fall/trip/walker mentioned",
                      "monitor_closely")])
    by (vm_compute; reflexivity).
  split; [exact E|].
  exact (proj1 (proj2 (findings_in_table_order _ _ E))).
Defined.

(** ** Action Planner *)

(** X7: for every note the plan has between one and four "Do now" bullets,
    as many "Monitor" bullets, one "Confirm" bullet and the same two
    "Schedule / delegate" bullets. *)
Theorem action_planner_buckets (note_text : string) :
  exists ls,
    action_planner_lines note_text = Ret ls
    /\ 1 <= List.length (bucket "### Do now" ls) <= 4
    /\ List.length (bucket "### Monitor" ls)
       = List.length (bucket "### Do now" ls)
    /\ List.length (bucket "### Confirm" ls) = 1
    /\ bucket "### Schedule / delegate" ls
       = ["- Prepare a short update to share with family/other caregivers.";
          "- If symptoms persist/worsen, contact clinician for guidance."].
Proof.
  unfold action_planner_lines. destruct (find_bp_total note_text) as (bp & ->).
  cbn [bind]. set (t := lower note_text).
  generalize (contains "dizzy" t || contains "lightheaded" t),
             (contains "very little water" t || contains "drank less" t),
             (contains "skipped breakfast" t || contains "ate only" t),
             (contains "missed" t).
  intros b1 b2 b3 b4.
  eexists. split; [reflexivity|].
  destruct bp as [[[sys dia] raw]|], b1, b2, b3, b4; vm_compute;
    repeat split; repeat constructor.
Qed.

(** ** Dizziness across the reports *)

(** X8: each report has its own test for dizziness.  The Risk Radar raises
    its finding on dizzy, dizziness or lightheaded; the Action Planner gives
    its advice on dizzy or lightheaded; the Doctor Brief and the Care Circle
    message mention dizziness on dizzy only. *)
Theorem dizziness_triggers (note_text tone : string) :
  let t := lower note_text in
  exists risks plan brief msg,
    risks_of note_text = Ret risks
    /\ action_planner_lines note_text = Ret plan
    /\ doctor_brief_lines note_text = Ret brief
    /\ care_circle_msg note_text tone = Ret msg
    /\ (In ("Dizziness on standing", "Evidence: 'dizzy / standing' mentioned",
            "monitor_closely") risks
        <-> has_any ["dizzy"; "dizziness"; "lightheaded"] t = true)
    /\ (In "- Help them stand slowly; ensure a safe path to prevent falls." plan
        <-> has_any ["dizzy"; "lightheaded"] t = true)
    /\ (In "- Dizziness when standing reported" brief
        <-> contains "dizzy" t = true)
    /\ (In "- Had dizziness when standing today." msg
        <-> contains "dizzy" t = true).
Proof.
  intros t.
  unfold risks_of, action_planner_lines, doctor_brief_lines, care_circle_msg.
  destruct (find_bp_total note_text) as (bp & ->). cbn [bind]. fold t.
  do 4 eexists. repeat (split; [reflexivity|]).
  unfold has_any. cbn [existsb]. rewrite !orb_false_r, !orb_assoc.
  split; [|split; [|split]].
  - rewrite !in_app_iff, !In_when. split.
    + intros [H|[[H _]|H]]; [|exact H|]; exfalso.
      * destruct bp as [[[sys dia] raw]|]; [|elim H].
        apply In_when in H as [_ H]. discriminate H.
      * repeat (destruct H as [[_ H]|H]; [discriminate H|]).
        destruct H as [_ H]. discriminate H.
    + intros H. right. left. auto.
  - generalize (contains "dizzy" t || contains "lightheaded" t).
    generalize (contains "very little water" t || contains "drank less" t),
               (contains "skipped breakfast" t || contains "ate only" t),
               (contains "missed" t).
    intros b2 b3 b4 b1.
    destruct bp as [[[sys dia] raw]|], b1, b2, b3, b4; cbn; split;
      try (intros _; reflexivity); try (intros H; discriminate H);
      try (intros _; solve [auto 20]);
      intros H; repeat (destruct H as [H|H]; [discriminate H|]); elim H.
  - generalize (contains "very little water" t || contains "drank less" t),
               (contains "missed" t).
    intros b2 b3.
    destruct (contains "dizzy" t), bp as [[[sys dia] raw]|], b2, b3;
      cbn [app when In]; split;
      try (intros _; reflexivity); try (intros H; discriminate H);
      try (intros _; solve [auto 20]);
      intros H;
      repeat (destruct H as [H|H]; [cbn [append] in H; discriminate H|]);
      elim H.
  - generalize (contains "missed" t), (startswith (lower tone) "urgent").
    intros b2 b3.
    destruct (contains "dizzy" t), bp as [[[sys dia] raw]|], b2, b3;
      cbn [app when In]; split;
      try (intros _; reflexivity); try (intros H; discriminate H);
      try (intros _; solve [auto 20]);
      intros H;
      repeat (destruct H as [H|H]; [cbn [append] in H; discriminate H|]);
      elim H.
Qed.

Example dizziness_word_only_on_radar :
  risks_of "some dizziness"
  = Ret [("Dizziness on standing", "Evidence: 'dizzy / standing' mentioned",
          "monitor_closely")]
  /\ contains "dizzy" (lower "some dizziness") = false.
Proof. split; vm_compute; reflexivity. Qed.

(** ** Doctor Brief *)

(** X9: when the reading found is not low (first number above 90 and second
    above 60), the Risk Radar raises no blood-pressure finding, yet the
    Doctor Brief lists the reading under the words "Low BP reading
    reported". *)
Theorem normal_reading_called_low (note_text : string) (sys dia : Z)
  (raw : string) :
  _find_bp note_text = Ret (Some (sys, dia, raw)) ->
  (90 < sys)%Z -> (60 < dia)%Z ->
  exists risks brief,
    risks_of note_text = Ret risks
    /\ ~ In (low_bp_finding raw) risks
    /\ doctor_brief_lines note_text = Ret brief
    /\ In ("- Low BP reading reported: " ++ raw) brief.
Proof.
  intros F Hs Hd. unfold risks_of, doctor_brief_lines. rewrite F.
  cbn [bind]. do 2 eexists. split; [reflexivity|].
  split; [|split; [reflexivity|]].
  - unfold low_bp_finding.
    rewrite !in_app_iff, !In_when, orb_true_iff, !Z.leb_le.
    intros [[H _]|H]; [lia|].
    repeat (destruct H as [[_ H]|H]; [discriminate H|]).
    destruct H as [_ H]. discriminate H.
  - cbn [app]. do 5 right. left. reflexivity.
Qed.

Lemma normal_reading_called_low_witness :
  (_find_bp "BP 120/80 this morning" = Ret (Some (120%Z, 80%Z, "120/80"))
   /\ (90 < 120)%Z /\ (60 < 80)%Z)
  /\ exists risks brief,
       risks_of "BP 120/80 this morning" = Ret risks
       /\ ~ In (low_bp_finding "120/80") risks
       /\ doctor_brief_lines "BP 120/80 this morning" = Ret brief
       /\ In ("- Low BP reading reported: " ++ "120/80") brief.
Proof.
  assert (F : _find_bp "BP 120/80 this morning"
              = Ret (Some (120%Z, 80%Z, "120/80")))
    by (vm_compute; reflexivity).
  split; [repeat split; (exact F || lia)|].
  apply (normal_reading_called_low _ _ _ _ F); lia.
Defined.

(** ** Dispatch *)







Example strip_sample : strip ("  Urgency: LOW" ++ nl) = "Urgency: LOW".
Proof. vm_compute. reflexivity. Qed.

(** X11: the model is called exactly when Demo Mode is not forced, the
    provider library is loaded and the key is set and not empty (an empty
    key counts as no key); it is called at most once, never after the
    heuristic generator, and the generator runs at most once. *)
Theorem dispatch_events {A : Type} (cfg : settings) (env : environment)
  (llm : provider) (prompt : string) (demo_fn : A -> result string)
  (demo_args : A) :
  let events := fst (call_llm_or_demo cfg env llm prompt demo_fn demo_args) in
  let req := request_of cfg env prompt in
  (llm_available cfg env = true
   <-> startswith (mode cfg) "Force Demo" = false
       /\ openai_loaded env = true
       /\ exists key, api_key env = Some key /\ key <> EmptyString)
  /\ (llm_available cfg env = false <-> events = [DemoCall])
  /\ (llm_available cfg env = true
      <-> events = [ModelCall req] \/ events = [ModelCall req; DemoCall]).
Proof.
  intros events req. subst events req. split.
  - split; [apply llm_available_true|].
    intros (F & L & key & K & N). unfold llm_available.
    rewrite F, L, K. cbn [negb getenv].
    destruct key; [now elim N | reflexivity].
  - unfold call_llm_or_demo.
    destruct (llm_available cfg env); cbn [negb].
    + destruct (llm (request_of cfg env prompt)) as [c|e];
        [|destruct (quota_error e)]; cbn [fst];
        (split; split; [discriminate | discriminate | auto | reflexivity]).
    + cbn [fst]. split; split.
      * reflexivity.
      * reflexivity.
      * intros H; discriminate H.
      * intros [H|H]; discriminate H.
Qed.

Example empty_key_is_no_key :
  llm_available auto_settings
    {| openai_loaded := true; api_key := Some EmptyString |} = false.
Proof. reflexivity. Qed.

(** X12: when the model call of a tab fails with a quota or rate-limit
    error, the tab returns what it returns in forced Demo Mode. *)
Theorem quota_fallback_is_demo_mode (cfg cfg' : settings)
  (env env' : environment) (llm llm' : provider) (k : kind) (i : inputs)
  (e : string) :
  llm_available cfg env = true ->
  llm (request_of cfg env (prompt_of k i)) = Raise e ->
  quota_text e ->
  startswith (mode cfg') "Force Demo" = true ->
  snd (run_tab cfg env llm k i) = snd (run_tab cfg' env' llm' k i)
  /\ snd (run_tab cfg env llm k i) = heuristic_of k i.
Proof.
  intros Av Err Q F.
  assert (D : run_tab cfg' env' llm' k i = ([DemoCall], heuristic_of k i)).
  { apply run_tab_unavailable. unfold llm_available. now rewrite F. }
  rewrite D. cbn [snd].
  apply quota_error_text in Q.
  assert (R : snd (run_tab cfg env llm k i) = heuristic_of k i).
  { unfold run_tab, call_llm_or_demo.
    destruct k; rewrite Av, Err, Q; reflexivity. }
  split; exact R.
Qed.

Lemma quota_fallback_is_demo_mode_witness :
  (llm_available auto_settings keyed_environment = true
   /\ rate_limited
        (request_of auto_settings keyed_environment
           (prompt_of CareCircle default_inputs))
      = Raise "Error code: 429 - Rate limit reached for requests"
   /\ quota_text "Error code: 429 - Rate limit reached for requests"
   /\ startswith (mode forced_settings) "Force Demo" = true)
  /\ snd (run_tab auto_settings keyed_environment rate_limited CareCircle
            default_inputs)
     = snd (run_tab forced_settings keyed_environment rate_limited CareCircle
              default_inputs).
Proof.
  assert (Q : quota_text "Error code: 429 - Rate limit reached for requests").
  { apply quota_error_text. reflexivity. }
  split; [repeat split; (reflexivity || exact Q)|].
  apply (quota_fallback_is_demo_mode auto_settings forced_settings
           keyed_environment keyed_environment rate_limited rate_limited
           CareCircle default_inputs
           "Error code: 429 - Rate limit reached for requests");
    (reflexivity || exact Q).
Defined.

(** ** The prompts *)

(** X13: the prompt of every tab carries the note and the context as they
    were typed; the Care Circle prompt also carries the audience and the
    tone, and the Wellbeing prompt the caregiver's own note. *)
Theorem prompt_embeds_inputs (k : kind) (i : inputs) :
  occurs (note i) (prompt_of k i)
  /\ occurs (context i) (prompt_of k i)
  /\ (k = CareCircle ->
      occurs (audience i) (prompt_of k i) /\ occurs (tone i) (prompt_of k i))
  /\ (k = Wellbeing -> occurs (caregiver_note i) (prompt_of k i)).
Proof.
  assert (J : forall l ls, In l ls -> occurs l (join nl ls))
    by (intros l ls; apply occurs_join).
  destruct k; unfold prompt_of;
    (split; [apply J; cbn [In]; auto 20|]);
    (split; [apply J; cbn [In]; auto 20|]);
    (split; [try (intros H; discriminate H)|try (intros H; discriminate H)]).
  - intros _. split.
    + apply (occurs_trans _ ("Write a short message for " ++ audience i ++ ".")).
      * now exists "Write a short message for ", ".".
      * apply J. cbn [In]. auto 20.
    + apply (occurs_trans _ ("Tone: " ++ tone i)).
      * exists "Tone: ", EmptyString. now rewrite append_nil_r.
      * apply J. cbn [In]. auto 20.
  - intros _. apply J. cbn [In]. auto 20.
Qed.

(** ** Phrase search *)



Lemma lower_append (a b : string) : lower (a ++ b) = lower a ++ lower b.
Proof.
  induction a as [|c a IH]; [reflexivity|].
  unfold lower in *. cbn [append map_chars]. now rewrite IH.
Qed.





Example capital_phrase_never_found :
  _contains_any "TIRED and Tired" ["Tired"; "tired"] = ["tired"].
Proof. vm_compute. reflexivity. Qed.

(** ** Temperature extraction *)







Example find_temp_sample :
  _find_temp "Temp was 101.2 °F at noon" = Ret (Some "101.2 °f").
Proof. vm_compute. reflexivity. Qed.

(** ** Wellbeing: the two notes *)

Lemma append_eq_append (a b c d : string) :
  a ++ b = c ++ d ->
  exists m, (a = c ++ m /\ d = m ++ b) \/ (c = a ++ m /\ b = m ++ d).
Proof.
  revert c; induction a as [|x a IH]; intros c E.
  - exists c. right. auto.
  - destruct c as [|y c].
    + exists (String x a). left. auto.
    + cbn [append] in E. injection E as <- E.
      destruct (IH c E) as (m & [[-> ->]|[-> ->]]); exists m; auto.
Qed.

Lemma occurs_append_l (p x z : string) : occurs p x -> occurs p (x ++ z).
Proof.
  intros (pre & post & ->). exists pre, (post ++ z).
  now rewrite !append_assoc.
Qed.

Lemma occurs_append_r (p y z : string) : occurs p y -> occurs p (z ++ y).
Proof.
  intros (pre & post & ->). exists (z ++ pre), post.
  now rewrite !append_assoc.
Qed.

Lemma occurs_empty (x : string) : occurs EmptyString x.
Proof. now exists EmptyString, x. Qed.

(** A phrase without the character [c] that occurs in a text occurs on one
    side of any [c] of the text. *)
Lemma occurs_split_char (p x y : string) (c : ascii) :
  all_chars (fun a => negb (Ascii.eqb a c)) p = true ->
  occurs p (x ++ String c y) -> occurs p x \/ occurs p y.
Proof.
  intros A (pre & post & E).
  assert (N : forall u v, p <> u ++ String c v).
  { intros u v ->. rewrite all_chars_append in A.
    apply andb_true_iff in A as [_ A]. cbn [all_chars] in A.
    now rewrite Ascii.eqb_refl in A. }
  symmetry in E. apply append_eq_append in E as (m & [[-> E]|[-> E]]).
  - destruct m as [|c' m]; cbn [append] in E.
    + destruct p as [|c' p]; [left; apply occurs_empty|].
      cbn [append] in E. injection E as -> _.
      elim (N EmptyString p). reflexivity.
    + injection E as _ ->. right. now exists m, post.
  - left. apply append_eq_append in E as (m2 & [[-> E]|[-> ->]]).
    + destruct m2 as [|c' m2]; cbn [append] in E.
      * exists pre, EmptyString. now rewrite !append_nil_r.
      * injection E as -> _. elim (N m m2). reflexivity.
    + now exists pre, m2.
Qed.

(** Split an occurrence [O] of a given phrase at the character [c] between
    [x] and [y]; the occurrence in [x] is refuted by computation. *)
Ltac split_cue O x y c :=
  match type of O with
  | occurs ?q _ =>
      let O' := fresh "O" in
      destruct (occurs_split_char q x y c eq_refl O) as [O'|O'];
      [apply contains_occurs in O'; vm_compute in O'; discriminate O'
      |clear O; rename O' into O]
  end.

(** X16: the label that the Wellbeing tab puts between the note and the
    caregiver's own note neither adds nor hides a cue: the cues of the
    combined text are those of the note and those of the caregiver's note. *)
Theorem wellbeing_cues_union (n cg p : string) :
  In p (strain_cues (n ++ nl ++ nl ++ "Caregiver note: " ++ cg))
  <-> In p (strain_cues n) \/ In p (strain_cues cg).
Proof.
  rewrite !strain_cues_In, !lower_append.
  change (lower nl) with nl.
  change (lower "Caregiver note: ") with "caregiver note: ".
  split.
  - intros [P O].
    assert (Either : occurs p (lower n) \/ occurs p (lower cg)); [|tauto].
    unfold strain_phrases in P. cbn [In] in P.
    repeat
      (destruct P as [<-|P];
       [match type of O with
        | occurs ?q _ =>
            destruct (occurs_split_char q (lower n)
                        (nl ++ "caregiver note: " ++ lower cg)
                        (ascii_of_nat 10) eq_refl O) as [O1|O1]
        end; [now left|];
        split_cue O1 EmptyString ("caregiver note: " ++ lower cg)
          (ascii_of_nat 10);
        split_cue O1 "caregiver" ("note: " ++ lower cg) " "%char;
        split_cue O1 "note:" (lower cg) " "%char;
        now right|]).
    elim P.
  - intros [[P O]|[P O]]; (split; [exact P|]).
    + now apply occurs_append_l.
    + now do 4 apply occurs_append_r.
Qed.

(** ** Further facts on the reports *)

Lemma care_circle_body_lines_witness :
  _find_bp ("BP 120" ++ nl ++ "/ 80")
  = Ret (Some (120%Z, 80%Z, "120" ++ nl ++ "/ 80"))
  /\ exists msg body,
       care_circle_msg ("BP 120" ++ nl ++ "/ 80") "Neutral + factual" = Ret msg
       /\ care_circle_body ("BP 120" ++ nl ++ "/ 80") "Neutral + factual"
          = Ret body
       /\ List.length (split_lines body)
          = List.length msg + count_nl ("120" ++ nl ++ "/ 80").
Proof.
  assert (F : _find_bp ("BP 120" ++ nl ++ "/ 80")
              = Ret (Some (120%Z, 80%Z, "120" ++ nl ++ "/ 80")))
    by (vm_compute; reflexivity).
  split; [exact F|].
  exact (care_circle_body_lines _ "Neutral + factual" _ F).
Defined.



(** X18: for every note the Doctor Brief has one summary line, at most four
    pertinent positives, and the same three questions and four things to
    track. *)
Theorem doctor_brief_buckets (note_text : string) :
  exists ls,
    doctor_brief_lines note_text = Ret ls
    /\ List.length (bucket "### Summary (4–6 sentences)" ls) = 1
    /\ List.length (bucket "### Pertinent positives" ls) <= 4
    /\ bucket "### Questions for clinician" ls
       = ["- Could symptoms relate to hydration, medication timing, or blood pressure variability?";
          "- What parameters should trigger urgent evaluation (e.g., BP thresholds, worsening dizziness)?";
          "- Any recommended monitoring cadence for BP/symptoms over the next few days?"]
    /\ bucket "### What to track before visit" ls
       = ["- BP readings with timestamps (if available)";
          "- Episodes of dizziness (timing, triggers, duration)";
          "- Food/fluid intake estimate";
          "- Meds taken/missed with approximate times"].
Proof.
  unfold doctor_brief_lines. destruct (find_bp_total note_text) as (bp & ->).
  cbn [bind]. set (t := lower note_text).
  generalize (contains "very little water" t || contains "drank less" t).
  generalize (contains "dizzy" t), (contains "missed" t).
  intros b1 b2 b3.
  eexists. split; [reflexivity|].
  destruct bp as [[[sys dia] raw]|], b1, b2, b3; vm_compute;
    repeat split; repeat constructor.
Qed.

(** ** The request sent to the model *)

(** X17: every request sent to the model carries the prompt of the tab as
    the user message, the model and the temperature of the settings and the
    key of the environment, and a system message that forbids diagnosis and
    invention and names the output language. *)
Theorem model_call_request {A : Type} (cfg : settings) (env : environment)
  (llm : provider) (prompt : string) (demo_fn : A -> result string)
  (demo_args : A) (r : request) :
  In (ModelCall r) (fst (call_llm_or_demo cfg env llm prompt demo_fn demo_args)) ->
  req_user r = prompt
  /\ req_model r = model cfg
  /\ req_temperature r = temperature cfg
  /\ req_api_key r = api_key env
  /\ occurs "- Do NOT diagnose or claim medical certainty." (req_system r)
  /\ occurs "- If something isn't mentioned, do not invent it." (req_system r)
  /\ occurs ("- Write output in " ++ output_lang cfg ++ ".") (req_system r).
Proof.
  intros H.
  assert (E : r = request_of cfg env prompt).
  { unfold call_llm_or_demo in H.
    destruct (llm_available cfg env); cbn [negb fst] in H.
    - destruct (llm (request_of cfg env prompt)) as [c|e];
        [|destruct (quota_error e)]; cbn [fst In] in H;
        repeat (destruct H as [H|H]; [congruence|]); elim H.
    - destruct H as [H|[]]. discriminate H. }
  subst r. cbn [request_of req_user req_model req_temperature req_api_key
                req_system].
  repeat (split; [reflexivity|]).
  unfold SYSTEM.
  repeat split; apply occurs_join; cbn [In]; auto 20.
Qed.

Lemma model_call_request_witness :
  In (ModelCall (request_of auto_settings keyed_environment "p"))
    (fst (call_llm_or_demo auto_settings keyed_environment rate_limited "p"
            demo_risk_radar "drank less"))
  /\ req_user (request_of auto_settings keyed_environment "p") = "p"
  /\ req_model (request_of auto_settings keyed_environment "p") = "gpt-4o-mini"
  /\ occurs "- Write output in English."
       (req_system (request_of auto_settings keyed_environment "p")).
Proof.
  assert (H : In (ModelCall (request_of auto_settings keyed_environment "p"))
                (fst (call_llm_or_demo auto_settings keyed_environment
                        rate_limited "p" demo_risk_radar "drank less")))
    by (left; reflexivity).
  split; [exact H|].
  destruct (model_call_request _ _ _ _ _ _ _ H) as (U & M & _ & _ & _ & _ & L).
  auto.
Defined.

Lemma risk_radar_advice_witness :
  risks_of "fainted in the kitchen"
  = Ret [("Potential emergency symptom",
          "Evidence: chest pain/fainting mentioned", "consider_urgent")]
  /\ exists ls,
       risk_radar_lines "fainted in the kitchen" = Ret ls
       /\ (In "- Consider urgent medical care / call clinician, especially if symptoms worsen." ls
           <-> urgency_of
                 [("Potential emergency symptom",
                   "Evidence: chest pain/fainting mentioned",
                   "consider_urgent")] = "high")
       /\ (In "- No clear risk signals detected from the note." ls
           <-> [("Potential emergency symptom",
                 "Evidence: chest pain/fainting mentioned",
                 "consider_urgent")] = []).
Proof.
  assert (E : risks_of "fainted in the kitchen"
              = Ret [("Potential emergency symptom",
                      "Evidence: chest pain/fainting mentioned",
                      "consider_urgent")])
    by (vm_compute; reflexivity).
  split; [exact E|].
  exact (risk_radar_advice _ _ E).
Defined.
